(** * MCP test servers: authorization, sessions and handler totality

    A shallow embedding of the Python demo servers of the repository
    ([test_mcp_server/combine_auth.py], [api_key.py], [noauth.py],
    [malicious_server.py] and [test-mcp-server.py]).

    Python values are modelled as the code has them: [str] as [string]
    (UTF-8 bytes), [dict] as a [gmap] with string keys, [list] as [list];
    code that may raise lives in the error monad [Py]. *)

From Stdlib Require Import ZArith Floats.
From stdpp Require Import base strings gmap list.

Open Scope string_scope.
Open Scope list_scope.

(** ** Python exceptions as an error monad *)

(** An exception instance: the name of its class (a subclass of
    [Exception]) and what [str(e)] renders. *)
Record PyExc := mkExc { exc_class : string; exc_str : string }.

Inductive Py (A : Type) : Type :=
| Return (a : A)
| Raise (e : PyExc).
Arguments Return {A} a.
Arguments Raise {A} e.

#[global] Instance Py_ret : MRet Py := fun _ a => Return a.
#[global] Instance Py_bind : MBind Py := fun _ _ f m =>
  match m with
  | Return a => f a
  | Raise e => Raise e
  end.

(** [try: body  except Exception as e: handler(e)] *)
Definition try_except {A} (body : Py A) (handler : PyExc → Py A) : Py A :=
  match body with
  | Return a => Return a
  | Raise e => handler e
  end.

Definition ValueError (msg : string) : PyExc := mkExc "ValueError" msg.
Definition LookupError (msg : string) : PyExc := mkExc "LookupError" msg.
Definition IndexError (msg : string) : PyExc := mkExc "IndexError" msg.
Definition KeyError (msg : string) : PyExc := mkExc "KeyError" msg.

Definition raises {A} (m : Py A) : Prop := ∃ e, m = Raise e.

(** ** The [str] methods the middleware uses *)

Module Str.

(** [s.startswith(p)] *)
Fixpoint startswith (p s : string) : bool :=
  match p, s with
  | EmptyString, _ => true
  | String a p', String b s' => if Ascii.eqb a b then startswith p' s' else false
  | String _ _, EmptyString => false
  end.

(** [s.split(sep)] for a non-empty [sep]: a left-to-right scan for
    non-overlapping occurrences of [sep].  [skip] counts the characters of
    an occurrence still to be dropped, [cur] is the piece being read, in
    reverse. *)
Fixpoint split_aux (sep : string) (skip : nat) (cur : string) (s : string)
  : list string :=
  match s with
  | EmptyString => [String.rev cur]
  | String c s' =>
      match skip with
      | S n => split_aux sep n cur s'
      | O =>
          if startswith sep s
          then String.rev cur :: split_aux sep (String.length sep - 1) EmptyString s'
          else split_aux sep 0 (String c cur) s'
      end
  end.

Definition split (sep s : string) : list string := split_aux sep 0 EmptyString s.

(** [l[i]], raising [IndexError] out of range *)
Definition index (l : list string) (i : nat) : Py string :=
  match l !! i with
  | Some x => Return x
  | None => Raise (IndexError "list index out of range")
  end.

End Str.

(** ** [contextvars.ContextVar]

    A context binds the variable [request_context] to a [dict], or leaves it
    unbound.  [set] rebinds it in the current context only; [get] without a
    default raises [LookupError] when it is unbound.  The message of that
    exception is the variable's repr, which includes its address; the text
    below stands for it without the address, and only the class is relied
    on. *)

Abbreviation dict := (gmap string string).
Abbreviation PyContext := (option dict).

Definition ContextVar_get (c : PyContext) : Py dict :=
  match c with
  | Some d => Return d
  | None => Raise (LookupError "<ContextVar name='request_context'>")
  end.

Definition ContextVar_set (d : dict) (c : PyContext) : PyContext := Some d.

(** ** [combine_auth.py]: permission table and check *)

Module CombineAuth.

Definition API_KEY_PERMISSIONS : gmap string (list string) :=
  <["key1" := ["add"; "subtract"]]>
    (<["key2" := ["add"]]>
       (<["key3" := ["subtract"]]> ∅)).

(** [API_KEY_PERMISSIONS.get(auth_token, [])], where [auth_token] is
    [None] when the context dict has no such key. *)
Definition permissions_of (auth_token : option string) : list string :=
  match auth_token with
  | Some t => default [] (API_KEY_PERMISSIONS !! t)
  | None => []
  end.

Definition check_permissions (c : PyContext) (tool_name : string) : Py bool :=
  d ← ContextVar_get c;
  let auth_token := d !! "auth_token" in
  let permissions := permissions_of auth_token in
  if negb (bool_decide (tool_name ∈ permissions))
  then Raise (ValueError ("Permission denied for tool: " +:+ tool_name))
  else Return true.

End CombineAuth.

(** ** HTTP layer shared by the servers *)

Record Request := mkRequest {
  path : string;
  headers : gmap string string
}.

Inductive Response :=
| JSONResponse (content : list (string * string)) (status_code : Z)
| EventStream
| Accepted
| NotFound.

(** What the application behind the middleware does on behalf of a request. *)
Inductive Event :=
| EvConnectSse (c : PyContext)
| EvPostMessage
| EvRegistryLookup (name : string)
| EvValidate (name : string)
| EvAuthorize (name : string)
| EvHandlerRun (name : string).

Abbreviation Served := (list Event * Response)%type.
Abbreviation Endpoint := (PyContext → Request → Served).

(** Python truthiness of [request.headers.get(...)]: [None] and [""] are falsy. *)
Definition truthy (o : option string) : bool :=
  match o with
  | Some (String _ _) => true
  | _ => false
  end.

(** The test of both middlewares, [not auth_header or not auth_header.startswith("Bearer ")]. *)
Definition unauthorized_header (o : option string) : bool :=
  match o with
  | Some h => negb (truthy o) || negb (Str.startswith "Bearer " h)
  | None => true
  end.

Definition dict_contains {V} (m : gmap string V) (k : string) : bool :=
  bool_decide (is_Some (m !! k)).

(** The route table of [create_starlette_app]: [Route("/sse", handle_sse)]
    opens the event stream and runs the MCP server on it,
    [Mount("/messages/", sse.handle_post_message)] accepts posted messages. *)
Definition routes : Endpoint := fun c request =>
  if String.eqb (path request) "/sse" then ([EvConnectSse c], EventStream)
  else if Str.startswith "/messages/" (path request) then ([EvPostMessage], Accepted)
  else ([], NotFound).

Definition Unauthorized : Response := JSONResponse [("error", "Unauthorized")] 401.
Definition Invalid_API_key : Response := JSONResponse [("error", "Invalid API key")] 401.

(** ** [api_key.py] *)

Module ApiKey.

Definition valid_api_key : string := "key1".

(** [AuthMiddleware.dispatch] *)
Definition dispatch (call_next : Endpoint) (c : PyContext) (request : Request)
  : Py (PyContext * Served) :=
  let auth_header := headers request !! "Authorization" in
  match auth_header with
  | Some h =>
      if negb (truthy auth_header) || negb (Str.startswith "Bearer " h)
      then Return (c, ([], Unauthorized))
      else
        token ← Str.index (Str.split "Bearer " h) 1;
        if negb (String.eqb token valid_api_key)
        then Return (c, ([], Invalid_API_key))
        else Return (c, call_next c request)
  | None => Return (c, ([], Unauthorized))
  end.

(** [create_starlette_app]: the routes wrapped by [AuthMiddleware]. *)
Definition app (c : PyContext) (request : Request) : Py (PyContext * Served) :=
  dispatch routes c request.

End ApiKey.

(** ** [combine_auth.py]: middleware *)

Module CombineAuthApp.
Import CombineAuth.

(** [AuthMiddleware.dispatch] *)
Definition dispatch (call_next : Endpoint) (c : PyContext) (request : Request)
  : Py (PyContext * Served) :=
  let auth_header := headers request !! "Authorization" in
  match auth_header with
  | Some h =>
      if negb (truthy auth_header) || negb (Str.startswith "Bearer " h)
      then Return (c, ([], Unauthorized))
      else
        token ← Str.index (Str.split "Bearer " h) 1;
        if negb (dict_contains API_KEY_PERMISSIONS token)
        then Return (c, ([], Invalid_API_key))
        else
          let c' := ContextVar_set {["auth_token" := token]} c in
          Return (c', call_next c' request)
  | None => Return (c, ([], Unauthorized))
  end.

Definition app (c : PyContext) (request : Request) : Py (PyContext * Served) :=
  dispatch routes c request.

End CombineAuthApp.

(** ** [noauth.py]: the same routes, no middleware *)

Module NoAuth.

Definition app (c : PyContext) (request : Request) : Py (PyContext * Served) :=
  Return (c, routes c request).

End NoAuth.

(** ** Values passed to and returned by handlers *)

Inductive Value :=
| VStr (s : string)
| VNum (x : float)
| VInt (n : Z).

Inductive Kind := tool | resource | prompt.

Inductive FieldType := TString | TNumber | TInteger.

Definition getitem {V} (m : gmap string V) (k : string) : Py V :=
  match m !! k with
  | Some v => Return v
  | None => Raise (KeyError k)
  end.

(** ** [combine_auth.py]: the tools *)

Module CombineAuthTools.
Import CombineAuth.

Definition add (c : PyContext) (a b : float) : Py float :=
  _ ← check_permissions c "add";
  Return (a + b)%float.

Definition subtract (c : PyContext) (a b : float) : Py float :=
  _ ← check_permissions c "subtract";
  Return (a - b)%float.

End CombineAuthTools.

(** ** [test-mcp-server.py]: the tools *)

Module Docs.

Definition docs_urls : gmap string string :=
  <["langchain" := "python.langchain.com/docs"]>
  (<["llama-index" := "docs.llamaindex.ai/en/stable"]>
  (<["autogen" := "microsoft.github.io/autogen/stable"]>
  (<["agno" := "docs.agno.com"]>
  (<["openai-agents-sdk" := "openai.github.io/openai-agents-python"]>
  (<["mcp-doc" := "modelcontextprotocol.io"]>
  (<["camel-ai" := "docs.camel-ai.org"]>
  (<["crew-ai" := "docs.crewai.com"]> ∅))))))).

(** The JSON a search returns, as far as [get_docs] reads it: an object
    whose members are lists of objects with string members. *)
Abbreviation SearchResults := (gmap string (list (gmap string string))).

(** The classes caught by [except httpx.TimeoutException]: the class and
    its subclasses in httpx. *)
Definition is_Timeout (cls : string) : bool :=
  bool_decide (cls ∈ ["TimeoutException"; "ConnectTimeout"; "ReadTimeout";
                      "WriteTimeout"; "PoolTimeout"]).

(** [except httpx.TimeoutException: ...] *)
Definition except_Timeout {A} (body : Py A) (handler : Py A) : Py A :=
  match body with
  | Return a => Return a
  | Raise e => if is_Timeout (exc_class e) then handler else Raise e
  end.

Section Network.
(** The network is outside the program: [client_post q] stands for
    [client.post(SERPER_URL, data={"q": q, "num": 2})], the status check
    and [response.json()]; [client_get url] for [client.get(url)] and the
    text BeautifulSoup extracts. *)
Variable client_post : string → Py SearchResults.
Variable client_get : string → Py string.

Definition search_web (query : string) : Py SearchResults :=
  except_Timeout (client_post query) (Return {["organic" := []]}).

Definition fetch_url (url : string) : Py string :=
  except_Timeout (client_get url) (Return "Timeout error").

(** [for result in results["organic"]: text += await fetch_url(result["link"])] *)
Fixpoint fetch_all (text : string) (organic : list (gmap string string)) : Py string :=
  match organic with
  | [] => Return text
  | result :: rest =>
      link ← getitem result "link";
      t ← fetch_url link;
      fetch_all (text +:+ t) rest
  end.

Definition get_docs (query library : string) : Py string :=
  if negb (dict_contains docs_urls library)
  then Raise (ValueError ("Library " +:+ library +:+ " not supported by this tool"))
  else
    site ← getitem docs_urls library;
    let query := "site:" +:+ site +:+ " " +:+ query in
    results ← search_web query;
    organic ← getitem results "organic";
    if Nat.eqb (length organic) 0
    then Return "No results found"
    else fetch_all "" organic.

Definition add_two_numbers (a b : Z) : Py Z := Return (a + b)%Z.

End Network.

End Docs.

(** ** [malicious_server.py]: the handlers that shell out *)

Module Malicious.

Definition nl : string := String (Ascii.ascii_of_nat 10) EmptyString.

Record CompletedProcess := mkCompleted { stdout : string; stderr : string }.

Section Subprocess.
(** [subprocess.run(cmd, shell=True, capture_output=True, text=True)]:
    the operating system decides what it returns or raises. *)
Variable subprocess_run : string → Py CompletedProcess.

Definition execute_command (command : string) : Py string :=
  try_except
    (result ← subprocess_run command;
     Return ("命令执行结果: " +:+ stdout result +:+ nl +:+ "错误: " +:+ stderr result))
    (fun e => Return ("执行失败: " +:+ exc_str e)).

Definition disk_usage_resource : Py string :=
  try_except
    (result ← subprocess_run "df -h";
     Return (stdout result))
    (fun e => Return ("获取磁盘使用失败: " +:+ exc_str e)).

End Subprocess.

End Malicious.

(** ** Dispatch core

    The servers leave registration, dispatch and the session transport to
    the MCP framework; these are taken from the specification. *)

Module Core.

(** Modelled from the spec: the data model of section 3
    (CapabilityDescriptor, CallEnvelope, ResultEnvelope), whose
    implementation is the framework's and not under [src/]. *)
Record CapabilityDescriptor := mkCap {
  cap_name : string;
  cap_kind : Kind;
  cap_schema : list (string * FieldType);
  cap_handler : PyContext → gmap string Value → Py Value
}.

Record CallEnvelope := mkCall {
  capability_name : string;
  arguments : gmap string Value;
  correlation_id : nat
}.

Inductive ErrorKind :=
| CapabilityNotFound
| InvalidArguments
| PermissionDenied
| HandlerFailure.

Inductive Outcome :=
| Success (v : Value)
| Error (kind : ErrorKind) (message : string).

Record ResultEnvelope := mkResult {
  result_id : nat;
  outcome : Outcome
}.

Inductive AuthDecision := Allowed | Denied.

Abbreviation Registry := (list CapabilityDescriptor).

(** Modelled from the spec: CapabilityRegistry.lookup of section 4.3,
    [lookup(name) → CapabilityDescriptor | NotFound]. *)
Fixpoint registry_lookup (name : string) (reg : Registry) : option CapabilityDescriptor :=
  match reg with
  | [] => None
  | d :: rest => if String.eqb (cap_name d) name then Some d else registry_lookup name rest
  end.

(** Modelled from the spec: CapabilityRegistry.register of section 4.3;
    it fails ([None]) if the name is already registered. *)
Definition register (d : CapabilityDescriptor) (reg : Registry) : option Registry :=
  match registry_lookup (cap_name d) reg with
  | Some _ => None
  | None => Some (reg ++ [d])
  end.

(** Modelled from the spec: capability listing of section 6, the full
    registry contents (name, kind, schema) for any authenticated session. *)
Definition list_capabilities (reg : Registry) (actx : PyContext)
  : list (string * Kind * list (string * FieldType)) :=
  map (fun d => (cap_name d, cap_kind d, cap_schema d)) reg.

Definition well_typed (t : FieldType) (v : Value) : bool :=
  match t, v with
  | TString, VStr _ => true
  | TNumber, VNum _ => true
  | TInteger, VInt _ => true
  | _, _ => false
  end.

(** Modelled from the spec: step 2 of section 4.4, validation of the
    arguments against the input schema; the result names the offending
    field. *)
Fixpoint validate (schema : list (string * FieldType)) (args : gmap string Value)
  : option string :=
  match schema with
  | [] => None
  | (f, t) :: rest =>
      match args !! f with
      | Some v => if well_typed t v then validate rest args else Some f
      | None => Some f
      end
  end.

(** Modelled from the spec: Session and the SessionTransport state
    machine of sections 3 and 4.5. *)
Inductive SessionState := Connecting | Active | Closing | Closed.

Record Session := mkSession {
  session_id : nat;
  state : SessionState;
  bound : PyContext;
  outbound : list ResultEnvelope
}.

Section Dispatcher.
Variable reg : Registry.
(** PermissionPolicy.authorize of section 4.2 *)
Variable authorize : PyContext → string → AuthDecision.

(** Modelled from the spec: Dispatcher.dispatch of section 4.4, in its
    order existence, schema, authorization, execution.  The events
    record the stages that ran. *)
Definition dispatch (call : CallEnvelope) (actx : PyContext)
  : list Event * ResultEnvelope :=
  let name := capability_name call in
  let reply := mkResult (correlation_id call) in
  match registry_lookup name reg with
  | None => ([EvRegistryLookup name], reply (Error CapabilityNotFound name))
  | Some d =>
      match validate (cap_schema d) (arguments call) with
      | Some field =>
          ([EvRegistryLookup name; EvValidate name], reply (Error InvalidArguments field))
      | None =>
          match authorize actx name with
          | Denied =>
              ([EvRegistryLookup name; EvValidate name; EvAuthorize name],
               reply (Error PermissionDenied name))
          | Allowed =>
              ([EvRegistryLookup name; EvValidate name; EvAuthorize name; EvHandlerRun name],
               reply match cap_handler d actx (arguments call) with
                     | Raise e => Error HandlerFailure (exc_str e)
                     | Return v => Success v
                     end)
          end
      end
  end.

(** Modelled from the spec: the transition [Active → Active] of section
    4.5.  The call is dispatched with this session's own context and the
    result written to the outbound stream; in any other state nothing is
    delivered. *)
Definition on_call (call : CallEnvelope) (s : Session) : Session :=
  match state s with
  | Active =>
      mkSession (session_id s) Active (bound s)
                (outbound s ++ [snd (dispatch call (bound s))])
  | _ => s
  end.

(** Modelled from the spec: the transitions [Active → Closing → Closed] of
    section 4.5, streams released. *)
Definition close (s : Session) : Session :=
  match state s with
  | Active | Closing => mkSession (session_id s) Closed (bound s) (outbound s)
  | _ => s
  end.

(** ** Concurrent sessions

    Requests arrive interleaved.  Each HTTP request is served in a task
    of its own, so the middleware runs in a context of its own (a copy
    of the server's, where [request_context] is unbound), and a session
    keeps the context its [/sse] request ran in. *)
Variable app : PyContext → Request → Py (PyContext * Served).

(** Modelled from the spec: what reaches the SessionTransport of section
    4.5, in arrival order: a client opening the event stream, a call posted
    to an established session, a disconnect. *)
Inductive Inbound :=
| Connect (sid : nat) (request : Request)
| Post (sid : nat) (request : Request) (call : CallEnvelope)
| Hangup (sid : nat).

Definition inbound_sid (ev : Inbound) : nat :=
  match ev with
  | Connect sid _ | Post sid _ _ | Hangup sid => sid
  end.

(** The context [handle_sse] was entered with, if the request got there. *)
Fixpoint connected (evs : list Event) : option PyContext :=
  match evs with
  | [] => None
  | EvConnectSse c :: _ => Some c
  | _ :: rest => connected rest
  end.

Fixpoint posted (evs : list Event) : bool :=
  match evs with
  | [] => false
  | EvPostMessage :: _ => true
  | _ :: rest => posted rest
  end.

(** Modelled from the spec: the handshake of section 4.5, [Connecting →
    Active] when the request gets through to [handle_sse], the session then
    being bound to the context it got there with, and [Connecting → Closed]
    (no session) otherwise. *)
Definition handshake (sid : nat) (request : Request) : option Session :=
  match app None request with
  | Return (_, (evs, _)) =>
      match connected evs with
      | Some c => Some (mkSession sid Active c [])
      | None => None
      end
  | Raise _ => None
  end.

(** Modelled from the spec: the SessionTransport of section 4.5 over all
    sessions.  Session identifiers are fresh, so a [Connect] for one in use
    changes nothing; a [Post] passes the middleware in the context of its
    own request before the call is handed to the session it names. *)
Definition server_step (st : gmap nat Session) (ev : Inbound) : gmap nat Session :=
  match ev with
  | Connect sid request =>
      match st !! sid with
      | Some _ => st
      | None =>
          match handshake sid request with
          | Some s => <[sid := s]> st
          | None => st
          end
      end
  | Post sid request call =>
      match app None request with
      | Return (_, (evs, _)) => if posted evs then alter (on_call call) sid st else st
      | Raise _ => st
      end
  | Hangup sid => alter close sid st
  end.

Definition run (tr : list Inbound) : gmap nat Session :=
  fold_left server_step tr ∅.

End Dispatcher.

End Core.

(** ** The servers, assembled *)

(** [combine_auth.py]: [mcp = FastMCP(...)] with the two [@mcp.tool()]
    registrations in source order, behind [AuthMiddleware]. *)
Module CombineAuthServer.
Import CombineAuth CombineAuthTools Core.

Definition number_schema : list (string * FieldType) :=
  [("a", TNumber); ("b", TNumber)].

(** A tool of signature [(a: float, b: float)] called with keyword arguments. *)
Definition binary_tool (f : PyContext → float → float → Py float)
  : PyContext → gmap string Value → Py Value :=
  fun c args =>
    match args !! "a", args !! "b" with
    | Some (VNum a), Some (VNum b) => r ← f c a b; Return (VNum r)
    | _, _ => Raise (mkExc "TypeError" "invalid arguments")
    end.

Definition add_descriptor : CapabilityDescriptor :=
  mkCap "add" tool number_schema (binary_tool add).

Definition subtract_descriptor : CapabilityDescriptor :=
  mkCap "subtract" tool number_schema (binary_tool subtract).

Definition boot : option Registry :=
  r ← register add_descriptor []; register subtract_descriptor r.

Definition registry : Registry := default [] boot.

(** [combine_auth.py] gives the framework no permission policy: the check
    is the call of [check_permissions] inside each tool.  The dispatcher's
    authorization stage therefore lets every call through to its handler. *)
Definition authorize (actx : PyContext) (name : string) : AuthDecision := Allowed.

Definition dispatch := Core.dispatch registry authorize.
Definition server_step := Core.server_step registry authorize CombineAuthApp.app.
Definition run := Core.run registry authorize CombineAuthApp.app.

(** The token a request presents: what follows the [Bearer ] prefix of its
    [Authorization] header, as the middleware extracts it. *)
Definition presented_token (request : Request) : option string :=
  match headers request !! "Authorization" with
  | Some h => if Str.startswith "Bearer " h then Str.split "Bearer " h !! 1 else None
  | None => None
  end.

Definition context_of (token : string) : PyContext := Some {["auth_token" := token]}.

(** The requests that remain when those addressed to session [sid] are
    taken out. *)
Definition without (sid : nat) (tr : list Inbound) : list Inbound :=
  filter (fun ev => inbound_sid ev ≠ sid) tr.

(** Session [sid], as found after the requests [tr], serves its own token
    only: it is bound to the context of a token presented by an accepted
    [/sse] request of [sid] itself, and every result on its outbound stream
    was computed by dispatching, under that context, a call posted to
    [sid]. *)
Definition serves_own_token (tr : list Inbound) (sid : nat) (s : Session) : Prop :=
  session_id s = sid ∧
  ∃ request t,
    Connect sid request ∈ tr ∧
    presented_token request = Some t ∧
    is_Some (API_KEY_PERMISSIONS !! t) ∧
    bound s = context_of t ∧
    ∃ calls,
      outbound s = map (fun call => snd (dispatch call (context_of t))) calls ∧
      Forall (fun call => ∃ r, Post sid r call ∈ tr) calls.

(** A [GET /sse] and a [POST /messages/] carrying [Authorization: Bearer token]. *)
Definition sse_request (token : string) : Request :=
  mkRequest "/sse" {["Authorization" := "Bearer " +:+ token]}.

Definition message_request (token : string) : Request :=
  mkRequest "/messages/" {["Authorization" := "Bearer " +:+ token]}.

(** The keyword arguments [a=..., b=...] of a call. *)
Definition numbers (a b : float) : gmap string Value :=
  <["a" := VNum a]> {["b" := VNum b]}.

End CombineAuthServer.

(** [test-mcp-server.py]: no middleware and no permission policy. *)
Module DocsServer.
Import Docs Core.

Section Network.
Variable client_post : string → Py SearchResults.
Variable client_get : string → Py string.

Definition get_docs_handler : PyContext → gmap string Value → Py Value :=
  fun _ args =>
    match args !! "query", args !! "library" with
    | Some (VStr query), Some (VStr library) =>
        r ← get_docs client_post client_get query library; Return (VStr r)
    | _, _ => Raise (mkExc "TypeError" "invalid arguments")
    end.

Definition add_two_numbers_handler : PyContext → gmap string Value → Py Value :=
  fun _ args =>
    match args !! "a", args !! "b" with
    | Some (VInt a), Some (VInt b) => r ← add_two_numbers a b; Return (VInt r)
    | _, _ => Raise (mkExc "TypeError" "invalid arguments")
    end.

Definition registry : Registry :=
  [ mkCap "get_docs" tool [("query", TString); ("library", TString)] get_docs_handler;
    mkCap "add_two_numbers" tool [("a", TInteger); ("b", TInteger)] add_two_numbers_handler ].

Definition authorize (actx : PyContext) (name : string) : AuthDecision := Allowed.

Definition on_call := Core.on_call registry authorize.

End Network.

(** The keyword arguments of a call of [get_docs] and of [add_two_numbers]. *)
Definition docs_arguments (query library : string) : gmap string Value :=
  <["query" := VStr query]> {["library" := VStr library]}.

Definition ints (a b : Z) : gmap string Value :=
  <["a" := VInt a]> {["b" := VInt b]}.

End DocsServer.

(** [malicious_server.py]: the tool and the resource that shell out. *)
Module MaliciousServer.
Import Malicious Core.

Section Subprocess.
Variable subprocess_run : string → Py CompletedProcess.

Definition execute_command_handler : PyContext → gmap string Value → Py Value :=
  fun _ args =>
    match args !! "command" with
    | Some (VStr command) => r ← execute_command subprocess_run command; Return (VStr r)
    | _ => Raise (mkExc "TypeError" "invalid arguments")
    end.

Definition disk_usage_handler : PyContext → gmap string Value → Py Value :=
  fun _ _ => r ← disk_usage_resource subprocess_run; Return (VStr r).

Definition registry : Registry :=
  [ mkCap "execute_command" tool [("command", TString)] execute_command_handler;
    mkCap "disk://usage" resource [] disk_usage_handler ].

Definition authorize (actx : PyContext) (name : string) : AuthDecision := Allowed.

Definition dispatch := Core.dispatch registry authorize.

End Subprocess.

End MaliciousServer.

(** ** Occurrences of a separator *)

Module StrOps.

(** No occurrence of [sep] in [t +:+ rest] starts inside [t]. *)
Fixpoint clean (sep t rest : string) : bool :=
  match t with
  | EmptyString => true
  | String c t' => negb (Str.startswith sep (t +:+ rest)) && clean sep t' rest
  end.

End StrOps.

(** ** Pages of search results *)

Module DocsOps.

(** A result whose page can be had: it has a link, and fetching it returns
    [page] (the text, or "Timeout error"). *)
Definition fetched (client_get : string → Py string)
    (result : gmap string string) (page : string) : Prop :=
  ∃ link, result !! "link" = Some link ∧ Docs.fetch_url client_get link = Return page.

End DocsOps.

(** ** [streamable.py]: the file resources *)

Module Streamable.

Section Files.
(** [open(path, 'r', encoding=...).read()]: the file system decides what is
    read or raised; [encoding] is [None] when the call passes none. *)
Variable read_file : option string → string → Py string.

Definition add (a b : Z) : Z := (a + b)%Z.

Definition dynamic_file_resource (file_path : string) : Py string :=
  try_except
    (content ← read_file (Some "utf-8") file_path;
     Return ("文件 " +:+ file_path +:+ " 内容:" +:+ Malicious.nl +:+ content))
    (fun e => Return ("读取文件 " +:+ file_path +:+ " 失败: " +:+ exc_str e)).

Definition sensitive_file_resource : Py string :=
  try_except
    (content ← read_file None "/etc/resolv.conf";
     Return content)
    (fun e => Return ("访问敏感文件失败: " +:+ exc_str e)).

End Files.

End Streamable.

(** * Properties *)

(** ** The error monad *)

Lemma bind_Return {A B} (a : A) (f : A → Py B) : (Return a ≫= f) = f a.
Proof. reflexivity. Qed.

Lemma bind_Raise {A B} (e : PyExc) (f : A → Py B) : (Raise e ≫= f) = Raise e.
Proof. reflexivity. Qed.

Lemma try_except_total {A} (body : Py A) (handler : PyExc → A) :
  ∃ a, try_except body (fun e => Return (handler e)) = Return a.
Proof. destruct body as [a|e]; simpl; eauto. Qed.

(** ** Splitting a header *)

Module StrFacts.
Import Str.

Lemma split_aux_nonempty sep s : ∀ skip cur, split_aux sep skip cur s ≠ [].
Proof.
  induction s as [|c s IH]; intros skip cur; simpl; [done|].
  destruct skip; [|apply IH].
  destruct (startswith sep (String c s)); [done|apply IH].
Qed.

(** A header that starts with the separator splits into at least two
    pieces, so that [split(...)[1]] is in range. *)
Lemma split_startswith sep s :
  sep ≠ EmptyString → startswith sep s = true →
  ∃ token rest, split sep s = EmptyString :: token :: rest.
Proof.
  intros Hsep Hpre. unfold split.
  destruct s as [|c s].
  - destruct sep; [done|discriminate].
  - cbn [split_aux]. rewrite Hpre. cbn [String.rev].
    destruct (split_aux sep (String.length sep - 1) EmptyString s) as [|t r] eqn:E.
    + by apply split_aux_nonempty in E.
    + eauto.
Qed.

Lemma index_1_startswith h :
  startswith "Bearer " h = true →
  ∃ token, index (split "Bearer " h) 1 = Return token ∧ split "Bearer " h !! 1 = Some token.
Proof.
  intros H. destruct (split_startswith "Bearer " h) as (token & rest & ->); [done|done|].
  exists token. split; reflexivity.
Qed.

Example split_bearer :
  split "Bearer " "Bearer key1" = [""; "key1"] ∧
  split "Bearer " "Bearer " = [""; ""] ∧
  split "Bearer " "Bearer key1Bearer x" = [""; "key1"; "x"] ∧
  split "Bearer " "Basic key1" = ["Basic key1"] ∧
  split "aa" "aaa" = [""; "a"].
Proof. repeat split. Qed.

End StrFacts.

(** ** The permission table *)

Module TableFacts.
Import CombineAuth.

Lemma table_key1 : API_KEY_PERMISSIONS !! "key1" = Some ["add"; "subtract"].
Proof. reflexivity. Qed.

Lemma table_key2 : API_KEY_PERMISSIONS !! "key2" = Some ["add"].
Proof. reflexivity. Qed.

Lemma table_key3 : API_KEY_PERMISSIONS !! "key3" = Some ["subtract"].
Proof. reflexivity. Qed.

Lemma table_other c :
  c ≠ "key1" → c ≠ "key2" → c ≠ "key3" → API_KEY_PERMISSIONS !! c = None.
Proof.
  intros H1 H2 H3. unfold API_KEY_PERMISSIONS.
  rewrite !lookup_insert_ne by done. apply lookup_empty.
Qed.

Lemma table_configured c :
  is_Some (API_KEY_PERMISSIONS !! c) ↔ c = "key1" ∨ c = "key2" ∨ c = "key3".
Proof.
  split.
  - intros [perms H].
    destruct (decide (c = "key1")); [auto|].
    destruct (decide (c = "key2")); [auto|].
    destruct (decide (c = "key3")); [auto|].
    rewrite table_other in H by done. discriminate.
  - intros [-> | [-> | ->]]; eexists; reflexivity.
Qed.

Lemma check_permissions_unfold (d : dict) k :
  check_permissions (Some d) k =
  if bool_decide (k ∈ permissions_of (d !! "auth_token"))
  then Return true
  else Raise (ValueError ("Permission denied for tool: " +:+ k)).
Proof. unfold check_permissions. simpl. by destruct (bool_decide _). Qed.

Lemma check_permissions_returns_true c k b :
  check_permissions c k = Return b → b = true.
Proof.
  destruct c as [d|]; [|discriminate].
  rewrite check_permissions_unfold. case_bool_decide; congruence.
Qed.

End TableFacts.

(** ** [check_permissions] *)

Module PermissionFacts.
Import CombineAuth CombineAuthTools TableFacts.

(** C2. For every configured token [c] and tool name [k], the permission
    check allows the invocation exactly when [k] is in the table entry of
    [c] (key1 ↦ add, subtract; key2 ↦ add; key3 ↦ subtract) and raises
    exactly when it is not; the outcome is a function of the token and the
    tool name alone. *)
Theorem check_permissions_matches_table :
  (API_KEY_PERMISSIONS !! "key1" = Some ["add"; "subtract"] ∧
   API_KEY_PERMISSIONS !! "key2" = Some ["add"] ∧
   API_KEY_PERMISSIONS !! "key3" = Some ["subtract"] ∧
   ∀ c, is_Some (API_KEY_PERMISSIONS !! c) → c = "key1" ∨ c = "key2" ∨ c = "key3") ∧
  (∀ (d : dict) c perms k,
     d !! "auth_token" = Some c → API_KEY_PERMISSIONS !! c = Some perms →
     (check_permissions (Some d) k = Return true ↔ k ∈ perms) ∧
     (raises (check_permissions (Some d) k) ↔ k ∉ perms)) ∧
  (∀ (d1 d2 : dict) k,
     d1 !! "auth_token" = d2 !! "auth_token" →
     check_permissions (Some d1) k = check_permissions (Some d2) k).
Proof.
  split; [|split].
  - repeat split; try reflexivity. intros c. apply table_configured.
  - intros d c perms k Hd Hc.
    rewrite check_permissions_unfold, Hd. simpl. rewrite Hc. simpl.
    case_bool_decide as Hk; split; split; try done.
    + intros [e He]. discriminate.
    + intros _. eexists. reflexivity.
  - intros d1 d2 k Heq. by rewrite !check_permissions_unfold, Heq.
Qed.

Lemma check_permissions_matches_table_witness :
  (check_permissions (Some {["auth_token" := "key2"]}) "subtract" = Return true
   ↔ "subtract" ∈ ["add"]) ∧
  (raises (check_permissions (Some {["auth_token" := "key2"]}) "subtract")
   ↔ "subtract" ∉ ["add"]).
Proof.
  exact (proj1 (proj2 check_permissions_matches_table)
           {["auth_token" := "key2"]} "key2" ["add"] "subtract" eq_refl eq_refl).
Defined.

(** C3, as the code has it: a denial is not a returned value.  For a
    forbidden tool and for a tool that does not exist, [check_permissions]
    raises [ValueError]. *)
Lemma check_permissions_denial_is_raised :
  check_permissions (Some {["auth_token" := "key2"]}) "subtract"
    = Raise (ValueError "Permission denied for tool: subtract") ∧
  check_permissions (Some {["auth_token" := "key1"]}) "multiply"
    = Raise (ValueError "Permission denied for tool: multiply").
Proof. split; reflexivity. Qed.

(** C3, amended. Whenever the tool name is absent from the permission set
    of the context's token, [check_permissions] raises [ValueError] with the
    message "Permission denied for tool: <name>"; the only value it ever
    returns is [True]. *)
Theorem check_permissions_raises_or_true :
  (∀ (d : dict) k,
     k ∉ permissions_of (d !! "auth_token") →
     check_permissions (Some d) k
       = Raise (ValueError ("Permission denied for tool: " +:+ k))) ∧
  (∀ c k b, check_permissions c k = Return b → b = true).
Proof.
  split.
  - intros d k Hk. rewrite check_permissions_unfold. by rewrite bool_decide_eq_false_2.
  - apply check_permissions_returns_true.
Qed.

Lemma check_permissions_raises_or_true_witness :
  check_permissions (Some {["auth_token" := "key3"]}) "add"
    = Raise (ValueError ("Permission denied for tool: " +:+ "add")) ∧
  true = true.
Proof.
  split.
  - apply (proj1 check_permissions_raises_or_true {["auth_token" := "key3"]} "add").
    apply (bool_decide_unpack _). vm_compute. exact I.
  - apply (proj2 check_permissions_raises_or_true (Some {["auth_token" := "key1"]}) "add" true).
    reflexivity.
Defined.

(** C9. Deny by default: under a token that the table does not list, the
    permission set is the empty list, [check_permissions] raises for every
    tool name, and so do the two permission-checked tools. *)
Theorem unconfigured_token_denied :
  ∀ (d : dict) tok k a b,
    d !! "auth_token" = Some tok → API_KEY_PERMISSIONS !! tok = None →
    permissions_of (d !! "auth_token") = [] ∧
    check_permissions (Some d) k
      = Raise (ValueError ("Permission denied for tool: " +:+ k)) ∧
    raises (add (Some d) a b) ∧ raises (subtract (Some d) a b).
Proof.
  intros d tok k a b Hd Htok.
  assert (Hperm : permissions_of (d !! "auth_token") = []).
  { rewrite Hd. simpl. by rewrite Htok. }
  assert (Hall : ∀ k', check_permissions (Some d) k'
                       = Raise (ValueError ("Permission denied for tool: " +:+ k'))).
  { intros k'. rewrite check_permissions_unfold, Hperm.
    rewrite bool_decide_eq_false_2; [done|]. apply not_elem_of_nil. }
  repeat split; [done|apply Hall| |].
  - unfold add. rewrite Hall. eexists. reflexivity.
  - unfold subtract. rewrite Hall. eexists. reflexivity.
Qed.

Lemma unconfigured_token_denied_witness :
  permissions_of (({["auth_token" := "key9"]} : dict) !! "auth_token") = [] ∧
  check_permissions (Some {["auth_token" := "key9"]}) "add"
    = Raise (ValueError ("Permission denied for tool: " +:+ "add")) ∧
  raises (add (Some {["auth_token" := "key9"]}) 1%float 2%float) ∧
  raises (subtract (Some {["auth_token" := "key9"]}) 1%float 2%float).
Proof.
  apply (unconfigured_token_denied {["auth_token" := "key9"]} "key9" "add");
    reflexivity.
Defined.

End PermissionFacts.

(** ** The authentication middleware *)

Module MiddlewareFacts.
Import StrFacts TableFacts.

Lemma startswith_truthy h : Str.startswith "Bearer " h = true → truthy (Some h) = true.
Proof. by destruct h. Qed.

Lemma unauthorized_header_spec o :
  unauthorized_header o = false ↔ ∃ h, o = Some h ∧ Str.startswith "Bearer " h = true.
Proof.
  destruct o as [h|]; simpl.
  - split.
    + intros [_ H%negb_false_iff]%orb_false_iff. eauto.
    + intros (h' & [= <-] & H). rewrite H. by destruct h.
  - split; [discriminate|]. by intros (? & ? & _).
Qed.

Lemma api_key_dispatch_unauthorized call_next c request :
  unauthorized_header (headers request !! "Authorization") = true →
  ApiKey.dispatch call_next c request = Return (c, ([], Unauthorized)).
Proof.
  unfold ApiKey.dispatch, unauthorized_header.
  destruct (headers request !! "Authorization") as [h|]; [|done].
  by intros ->.
Qed.

Lemma combine_dispatch_unauthorized call_next c request :
  unauthorized_header (headers request !! "Authorization") = true →
  CombineAuthApp.dispatch call_next c request = Return (c, ([], Unauthorized)).
Proof.
  unfold CombineAuthApp.dispatch, unauthorized_header.
  destruct (headers request !! "Authorization") as [h|]; [|done].
  by intros ->.
Qed.

Lemma api_key_dispatch_bearer call_next c request h token :
  headers request !! "Authorization" = Some h →
  Str.startswith "Bearer " h = true →
  Str.split "Bearer " h !! 1 = Some token →
  ApiKey.dispatch call_next c request =
    if String.eqb token ApiKey.valid_api_key
    then Return (c, call_next c request)
    else Return (c, ([], Invalid_API_key)).
Proof.
  intros Hh Hpre Htok. unfold ApiKey.dispatch. rewrite Hh.
  rewrite (startswith_truthy h Hpre), Hpre. simpl.
  unfold Str.index. rewrite Htok. simpl.
  by destruct (String.eqb token ApiKey.valid_api_key).
Qed.

Lemma combine_dispatch_bearer call_next c request h token :
  headers request !! "Authorization" = Some h →
  Str.startswith "Bearer " h = true →
  Str.split "Bearer " h !! 1 = Some token →
  CombineAuthApp.dispatch call_next c request =
    if dict_contains CombineAuth.API_KEY_PERMISSIONS token
    then Return (Some {["auth_token" := token]},
                 call_next (Some {["auth_token" := token]}) request)
    else Return (c, ([], Invalid_API_key)).
Proof.
  intros Hh Hpre Htok. unfold CombineAuthApp.dispatch. rewrite Hh.
  rewrite (startswith_truthy h Hpre), Hpre. simpl.
  unfold Str.index. rewrite Htok. simpl.
  by destruct (dict_contains CombineAuth.API_KEY_PERMISSIONS token).
Qed.

(** C5, as the code has it: the server of [noauth.py] installs no
    middleware; a request without an [Authorization] header reaches
    [handle_sse] and a session is established. *)
Lemma noauth_accepts_without_header :
  headers (mkRequest "/sse" ∅) !! "Authorization" = None ∧
  NoAuth.app None (mkRequest "/sse" ∅)
    = Return (None, ([EvConnectSse None], EventStream)) ∧
  Core.handshake NoAuth.app 0 (mkRequest "/sse" ∅)
    = Some (Core.mkSession 0 Core.Active None []).
Proof. repeat split. Qed.

(** C5, amended. On the servers that install [AuthMiddleware]
    ([api_key.py] and [combine_auth.py]), for every request: if the
    [Authorization] header is absent or does not start with "Bearer ", the
    response is 401 with body {"error": "Unauthorized"}; if it does, a token
    is extracted, and if that token is not a configured key the response is
    401 with body {"error": "Invalid API key"}.  In both cases the
    application behind the middleware is not called and no session is
    established. *)
Theorem middleware_rejects :
  ∀ (call_next : Endpoint) (c : PyContext) (request : Request) (sid : nat),
    ((headers request !! "Authorization" = None ∨
      ∃ h, headers request !! "Authorization" = Some h ∧
           Str.startswith "Bearer " h = false) →
     ApiKey.dispatch call_next c request
       = Return (c, ([], JSONResponse [("error", "Unauthorized")] 401)) ∧
     CombineAuthApp.dispatch call_next c request
       = Return (c, ([], JSONResponse [("error", "Unauthorized")] 401)) ∧
     Core.handshake ApiKey.app sid request = None ∧
     Core.handshake CombineAuthApp.app sid request = None) ∧
    (∀ h, headers request !! "Authorization" = Some h →
          Str.startswith "Bearer " h = true →
     ∃ token,
       Str.index (Str.split "Bearer " h) 1 = Return token ∧
       (token ≠ ApiKey.valid_api_key →
        ApiKey.dispatch call_next c request
          = Return (c, ([], JSONResponse [("error", "Invalid API key")] 401)) ∧
        Core.handshake ApiKey.app sid request = None) ∧
       (CombineAuth.API_KEY_PERMISSIONS !! token = None →
        CombineAuthApp.dispatch call_next c request
          = Return (c, ([], JSONResponse [("error", "Invalid API key")] 401)) ∧
        Core.handshake CombineAuthApp.app sid request = None)).
Proof.
  intros call_next c request sid. split.
  - intros Hbad.
    assert (Hu : unauthorized_header (headers request !! "Authorization") = true).
    { destruct Hbad as [-> | (h & -> & Hpre)]; [done|].
      unfold unauthorized_header. rewrite Hpre. apply orb_true_r. }
    unfold Core.handshake, ApiKey.app, CombineAuthApp.app.
    rewrite !api_key_dispatch_unauthorized, !combine_dispatch_unauthorized by done.
    done.
  - intros h Hh Hpre.
    destruct (index_1_startswith h Hpre) as (token & Hidx & Htok).
    exists token. split; [done|]. split.
    + intros Hne. unfold Core.handshake, ApiKey.app.
      rewrite !(api_key_dispatch_bearer _ _ _ h token) by done.
      apply String.eqb_neq in Hne. by rewrite Hne.
    + intros Hnone. unfold Core.handshake, CombineAuthApp.app.
      rewrite !(combine_dispatch_bearer _ _ _ h token) by done.
      unfold dict_contains. rewrite Hnone.
      rewrite bool_decide_eq_false_2; [done|]. by intros [? ?].
Qed.

Lemma middleware_rejects_witness :
  (ApiKey.dispatch routes None (mkRequest "/sse" {["Authorization" := "Basic key1"]})
     = Return (None, ([], JSONResponse [("error", "Unauthorized")] 401)) ∧
   CombineAuthApp.dispatch routes None (mkRequest "/sse" {["Authorization" := "Basic key1"]})
     = Return (None, ([], JSONResponse [("error", "Unauthorized")] 401)) ∧
   Core.handshake ApiKey.app 7 (mkRequest "/sse" {["Authorization" := "Basic key1"]}) = None ∧
   Core.handshake CombineAuthApp.app 7 (mkRequest "/sse" {["Authorization" := "Basic key1"]}) = None) ∧
  (∃ token,
     Str.index (Str.split "Bearer " "Bearer key4") 1 = Return token ∧
     (token ≠ ApiKey.valid_api_key →
      ApiKey.dispatch routes None (mkRequest "/sse" {["Authorization" := "Bearer key4"]})
        = Return (None, ([], JSONResponse [("error", "Invalid API key")] 401)) ∧
      Core.handshake ApiKey.app 7 (mkRequest "/sse" {["Authorization" := "Bearer key4"]}) = None) ∧
     (CombineAuth.API_KEY_PERMISSIONS !! token = None →
      CombineAuthApp.dispatch routes None (mkRequest "/sse" {["Authorization" := "Bearer key4"]})
        = Return (None, ([], JSONResponse [("error", "Invalid API key")] 401)) ∧
      Core.handshake CombineAuthApp.app 7 (mkRequest "/sse" {["Authorization" := "Bearer key4"]}) = None)).
Proof.
  split.
  - apply (proj1 (middleware_rejects routes None
                    (mkRequest "/sse" {["Authorization" := "Basic key1"]}) 7)).
    right. exists "Basic key1". split; reflexivity.
  - apply (proj2 (middleware_rejects routes None
                    (mkRequest "/sse" {["Authorization" := "Bearer key4"]}) 7)
             "Bearer key4"); reflexivity.
Defined.

(** C6. A request without an [Authorization] header is answered 401
    Unauthorized by the middleware of [api_key.py] itself: whatever the
    application behind it would do, none of it runs, so no registry lookup,
    validation or handler execution happens; no session is created and no
    call is dispatched. *)
Theorem no_header_rejected_before_lookup :
  ∀ (call_next : Endpoint) (c : PyContext) (request : Request),
    headers request !! "Authorization" = None →
    ApiKey.dispatch call_next c request
      = Return (c, ([], JSONResponse [("error", "Unauthorized")] 401)) ∧
    (∀ c' evs resp,
       ApiKey.dispatch call_next c request = Return (c', (evs, resp)) →
       ∀ name, (EvRegistryLookup name ∉ evs) ∧ (EvValidate name ∉ evs) ∧
               (EvAuthorize name ∉ evs) ∧ (EvHandlerRun name ∉ evs)) ∧
    (∀ reg authorize st sid call,
       Core.server_step reg authorize ApiKey.app st (Core.Connect sid request) = st ∧
       Core.server_step reg authorize ApiKey.app st (Core.Post sid request call) = st).
Proof.
  intros call_next c request Hnone.
  assert (Hu : unauthorized_header (headers request !! "Authorization") = true)
    by by rewrite Hnone.
  split; [by apply api_key_dispatch_unauthorized|]. split.
  - intros c' evs resp. rewrite api_key_dispatch_unauthorized by done.
    intros [= <- <- <-] name. repeat split; apply not_elem_of_nil.
  - intros reg authorize st sid call. simpl.
    unfold Core.handshake, ApiKey.app.
    rewrite !api_key_dispatch_unauthorized by done. simpl.
    split; [by destruct (st !! sid)|done].
Qed.

Lemma no_header_rejected_before_lookup_witness :
  ApiKey.dispatch routes None (mkRequest "/sse" ∅)
    = Return (None, ([], JSONResponse [("error", "Unauthorized")] 401)).
Proof.
  apply (no_header_rejected_before_lookup routes None (mkRequest "/sse" ∅)).
  reflexivity.
Defined.

End MiddlewareFacts.

(** ** Dispatch on the server of [combine_auth.py] *)

Module DispatchFacts.
Import Core CombineAuthServer.

Lemma boot_ok : boot = Some [add_descriptor; subtract_descriptor].
Proof. reflexivity. Qed.

Lemma validate_numbers a b : validate number_schema (numbers a b) = None.
Proof. reflexivity. Qed.

Lemma dispatch_add (t : string) perms id a b :
  CombineAuth.API_KEY_PERMISSIONS !! t = Some perms →
  dispatch (mkCall "add" (numbers a b) id) (context_of t)
    = ([EvRegistryLookup "add"; EvValidate "add"; EvAuthorize "add"; EvHandlerRun "add"],
       mkResult id (if bool_decide ("add" ∈ perms) then Success (VNum (a + b)%float)
                    else Error HandlerFailure "Permission denied for tool: add")).
Proof.
  intros Hperms. unfold dispatch, Core.dispatch. cbn.
  unfold binary_tool, numbers. rewrite lookup_insert_eq.
  rewrite lookup_insert_ne by done. rewrite lookup_singleton_eq.
  unfold CombineAuthTools.add, context_of.
  rewrite TableFacts.check_permissions_unfold, lookup_singleton_eq.
  simpl. rewrite Hperms. simpl. by case_bool_decide.
Qed.

Lemma dispatch_subtract (t : string) perms id a b :
  CombineAuth.API_KEY_PERMISSIONS !! t = Some perms →
  dispatch (mkCall "subtract" (numbers a b) id) (context_of t)
    = ([EvRegistryLookup "subtract"; EvValidate "subtract"; EvAuthorize "subtract";
        EvHandlerRun "subtract"],
       mkResult id (if bool_decide ("subtract" ∈ perms) then Success (VNum (a - b)%float)
                    else Error HandlerFailure "Permission denied for tool: subtract")).
Proof.
  intros Hperms. unfold dispatch, Core.dispatch. cbn.
  unfold binary_tool, numbers. rewrite lookup_insert_eq.
  rewrite lookup_insert_ne by done. rewrite lookup_singleton_eq.
  unfold CombineAuthTools.subtract, context_of.
  rewrite TableFacts.check_permissions_unfold, lookup_singleton_eq.
  simpl. rewrite Hperms. simpl. by case_bool_decide.
Qed.

(** C4, as the code has it: the source has no permission stage apart from
    the tools.  With key2 a call of subtract reaches the handler, whose own
    [check_permissions] raises; the answer is the handler's failure, not an
    error of kind PermissionDenied. *)
Lemma forbidden_call_is_handler_failure :
  dispatch (mkCall "subtract" (numbers 5 3) 10) (context_of "key2")
    = ([EvRegistryLookup "subtract"; EvValidate "subtract"; EvAuthorize "subtract";
        EvHandlerRun "subtract"],
       mkResult 10 (Error HandlerFailure "Permission denied for tool: subtract")) ∧
  HandlerFailure ≠ PermissionDenied.
Proof. split; [reflexivity|discriminate]. Qed.

(** C4, amended. With the token key2 (permitted add), a call of subtract is
    refused by the tool's own permission check: the handler raises
    ValueError "Permission denied for tool: subtract", which the dispatcher
    reports as the failure of that handler; a call of the unregistered
    multiply is answered CapabilityNotFound at the lookup, no handler being
    run.  With key1 both add and subtract succeed and multiply is
    CapabilityNotFound.  The forbidden and the unknown capability are
    reported with different error kinds and different messages. *)
Theorem forbidden_and_unknown_are_distinct :
  ∀ (id : nat) (a b : float) (args : gmap string Value),
    dispatch (mkCall "subtract" (numbers a b) id) (context_of "key2")
      = ([EvRegistryLookup "subtract"; EvValidate "subtract"; EvAuthorize "subtract";
          EvHandlerRun "subtract"],
         mkResult id (Error HandlerFailure "Permission denied for tool: subtract")) ∧
    CombineAuthTools.subtract (context_of "key2") a b
      = Raise (ValueError "Permission denied for tool: subtract") ∧
    dispatch (mkCall "multiply" args id) (context_of "key2")
      = ([EvRegistryLookup "multiply"], mkResult id (Error CapabilityNotFound "multiply")) ∧
    outcome (snd (dispatch (mkCall "add" (numbers a b) id) (context_of "key1")))
      = Success (VNum (a + b)%float) ∧
    outcome (snd (dispatch (mkCall "subtract" (numbers a b) id) (context_of "key1")))
      = Success (VNum (a - b)%float) ∧
    outcome (snd (dispatch (mkCall "multiply" args id) (context_of "key1")))
      = Error CapabilityNotFound "multiply" ∧
    HandlerFailure ≠ CapabilityNotFound.
Proof.
  intros id a b args.
  split; [by rewrite (dispatch_subtract "key2" ["add"])|].
  split; [reflexivity|].
  split; [reflexivity|].
  split; [by rewrite (dispatch_add "key1" ["add"; "subtract"])|].
  split; [by rewrite (dispatch_subtract "key1" ["add"; "subtract"])|].
  split; [reflexivity|discriminate].
Qed.

(** C7. The registry is built once, by the two registrations, before any
    credential exists, and the listing is that whole registry, add and
    subtract with kind and schema, whatever the session's context.  The
    permission is checked when a capability is invoked, by the tool itself:
    for every configured token, each of the two listed tools answers with
    its result exactly when the token's table entry has it, and with the
    tool's denial otherwise.  So a session of key2 sees subtract listed
    although invoking it is refused. *)
Theorem listing_ignores_permissions :
  ∀ (actx : PyContext) (id : nat) (a b : float) (t : string) (perms : list string),
    boot = Some registry ∧
    list_capabilities registry actx
      = [("add", tool, [("a", TNumber); ("b", TNumber)]);
         ("subtract", tool, [("a", TNumber); ("b", TNumber)])] ∧
    (CombineAuth.API_KEY_PERMISSIONS !! t = Some perms →
     list_capabilities registry (context_of t) = list_capabilities registry actx ∧
     outcome (snd (dispatch (mkCall "add" (numbers a b) id) (context_of t)))
       = (if bool_decide ("add" ∈ perms) then Success (VNum (a + b)%float)
          else Error HandlerFailure "Permission denied for tool: add") ∧
     outcome (snd (dispatch (mkCall "subtract" (numbers a b) id) (context_of t)))
       = (if bool_decide ("subtract" ∈ perms) then Success (VNum (a - b)%float)
          else Error HandlerFailure "Permission denied for tool: subtract")) ∧
    ("subtract", tool, number_schema) ∈ list_capabilities registry (context_of "key2") ∧
    CombineAuthTools.subtract (context_of "key2") a b
      = Raise (ValueError "Permission denied for tool: subtract") ∧
    outcome (snd (dispatch (mkCall "subtract" (numbers a b) id) (context_of "key2")))
      = Error HandlerFailure "Permission denied for tool: subtract".
Proof.
  intros actx id a b t perms.
  split; [reflexivity|]. split; [reflexivity|]. split.
  - intros Hperms. split; [reflexivity|]. split.
    + by rewrite (dispatch_add t perms).
    + by rewrite (dispatch_subtract t perms).
  - split; [|split].
    + apply list_elem_of_In. right. left. reflexivity.
    + reflexivity.
    + by rewrite (dispatch_subtract "key2" ["add"]).
Qed.

Lemma listing_ignores_permissions_witness :
  list_capabilities registry (context_of "key3") = list_capabilities registry None ∧
  outcome (snd (dispatch (mkCall "add" (numbers 5 3) 1) (context_of "key3")))
    = (if bool_decide ("add" ∈ ["subtract"]) then Success (VNum (5 + 3)%float)
       else Error HandlerFailure "Permission denied for tool: add") ∧
  outcome (snd (dispatch (mkCall "subtract" (numbers 5 3) 1) (context_of "key3")))
    = (if bool_decide ("subtract" ∈ ["subtract"]) then Success (VNum (5 - 3)%float)
       else Error HandlerFailure "Permission denied for tool: subtract").
Proof.
  apply (listing_ignores_permissions None 1 5%float 3%float "key3" ["subtract"]).
  reflexivity.
Defined.

End DispatchFacts.

(** ** Handler failures and the session *)

Module SessionFacts.
Import Core.

Lemma dispatch_handler_raises reg authorize call actx d e :
  registry_lookup (capability_name call) reg = Some d →
  validate (cap_schema d) (arguments call) = None →
  authorize actx (capability_name call) = Allowed →
  cap_handler d actx (arguments call) = Raise e →
  snd (dispatch reg authorize call actx)
    = mkResult (correlation_id call) (Error HandlerFailure (exc_str e)).
Proof.
  intros Hd Hv Ha He. unfold dispatch. by rewrite Hd, Hv, Ha, He.
Qed.

Lemma on_call_active reg authorize call s :
  state s = Active →
  on_call reg authorize call s
    = mkSession (session_id s) Active (bound s)
        (outbound s ++ [snd (dispatch reg authorize call (bound s))]).
Proof. intros H. unfold on_call. by rewrite H. Qed.

Lemma get_docs_unsupported client_post client_get query library :
  Docs.docs_urls !! library = None →
  Docs.get_docs client_post client_get query library
    = Raise (ValueError ("Library " +:+ library +:+ " not supported by this tool")).
Proof.
  intros H. unfold Docs.get_docs, dict_contains. rewrite H.
  rewrite bool_decide_eq_false_2; [done|]. by intros [? ?].
Qed.

(** C8. A call whose handler raises is answered Error(HandlerFailure,
    message) on the outbound stream of its session, which stays Active with
    the same context: the next call is dispatched as usual.  So it is for
    [get_docs] called with a library it does not support, after which
    [add_two_numbers] still succeeds. *)
Theorem handler_failure_keeps_session :
  (∀ reg authorize (s : Session) call d e,
     state s = Active →
     registry_lookup (capability_name call) reg = Some d →
     validate (cap_schema d) (arguments call) = None →
     authorize (bound s) (capability_name call) = Allowed →
     cap_handler d (bound s) (arguments call) = Raise e →
     outbound (on_call reg authorize call s)
       = outbound s ++ [mkResult (correlation_id call) (Error HandlerFailure (exc_str e))] ∧
     state (on_call reg authorize call s) = Active ∧
     bound (on_call reg authorize call s) = bound s ∧
     ∀ call2,
       state (on_call reg authorize call2 (on_call reg authorize call s)) = Active ∧
       outbound (on_call reg authorize call2 (on_call reg authorize call s))
         = outbound (on_call reg authorize call s)
             ++ [snd (dispatch reg authorize call2 (bound s))]) ∧
  (∀ client_post client_get (s : Session) query library id id2 a b,
     state s = Active →
     Docs.docs_urls !! library = None →
     outbound
       (DocsServer.on_call client_post client_get
          (mkCall "add_two_numbers" (DocsServer.ints a b) id2)
          (DocsServer.on_call client_post client_get
             (mkCall "get_docs" (DocsServer.docs_arguments query library) id) s))
     = outbound s
         ++ [mkResult id (Error HandlerFailure
                            ("Library " +:+ library +:+ " not supported by this tool"));
             mkResult id2 (Success (VInt (a + b)))]).
Proof.
  split.
  - intros reg authorize s call d e Hs Hd Hv Ha He.
    rewrite (on_call_active _ _ call s Hs). simpl.
    rewrite (dispatch_handler_raises _ _ _ _ d e) by done.
    repeat split. all: by rewrite on_call_active.
  - intros client_post client_get s query library id id2 a b Hs Hlib.
    unfold DocsServer.on_call.
    rewrite (on_call_active _ _ _ s Hs).
    rewrite on_call_active by done. simpl.
    rewrite <- app_assoc. f_equal. simpl. f_equal.
    rewrite (dispatch_handler_raises _ _ _ _
               (mkCap "get_docs" tool [("query", TString); ("library", TString)]
                  (DocsServer.get_docs_handler client_post client_get))
               (ValueError ("Library " +:+ library +:+ " not supported by this tool")));
      try reflexivity.
    cbn [cap_handler arguments]. unfold DocsServer.get_docs_handler.
    change (DocsServer.docs_arguments query library !! "query") with (Some (VStr query)).
    change (DocsServer.docs_arguments query library !! "library") with (Some (VStr library)).
    cbv beta iota. by rewrite get_docs_unsupported.
Qed.

Lemma handler_failure_keeps_session_witness :
  outbound
    (DocsServer.on_call (fun _ => Return ∅) (fun _ => Return "")
       (mkCall "add_two_numbers" (DocsServer.ints 2 3) 2)
       (DocsServer.on_call (fun _ => Return ∅) (fun _ => Return "")
          (mkCall "get_docs" (DocsServer.docs_arguments "React Agent" "react") 1)
          (mkSession 0 Active None [])))
  = [] ++ [mkResult 1 (Error HandlerFailure
                         ("Library " +:+ "react" +:+ " not supported by this tool"));
           mkResult 2 (Success (VInt (2 + 3)))].
Proof.
  apply (proj2 handler_failure_keeps_session
           (fun _ => Return ∅) (fun _ => Return "") (mkSession 0 Active None [])
           "React Agent" "react" 1 2 2%Z 3%Z); reflexivity.
Defined.

End SessionFacts.

(** ** The handlers of [malicious_server.py] *)

Module HandlerTotality.
Import Malicious Core.

Lemma execute_command_cases subprocess_run command :
  execute_command subprocess_run command =
  match subprocess_run command with
  | Return result =>
      Return ("命令执行结果: " +:+ stdout result +:+ nl +:+ "错误: " +:+ stderr result)
  | Raise e => Return ("执行失败: " +:+ exc_str e)
  end.
Proof. unfold execute_command. by destruct (subprocess_run command). Qed.

Lemma disk_usage_resource_cases subprocess_run :
  disk_usage_resource subprocess_run =
  match subprocess_run "df -h" with
  | Return result => Return (stdout result)
  | Raise e => Return ("获取磁盘使用失败: " +:+ exc_str e)
  end.
Proof. unfold disk_usage_resource. by destruct (subprocess_run "df -h"). Qed.

(** C10. Whatever [subprocess.run] returns or raises, [execute_command]
    and [disk_usage_resource] return a string: an exception is caught and
    rendered into it.  Dispatched, they therefore answer Success and never
    HandlerFailure. *)
Theorem shell_handlers_total :
  ∀ (subprocess_run : string → Py CompletedProcess),
    (∀ command, ∃ s, execute_command subprocess_run command = Return s) ∧
    (∃ s, disk_usage_resource subprocess_run = Return s) ∧
    (∀ command e,
       subprocess_run command = Raise e →
       execute_command subprocess_run command = Return ("执行失败: " +:+ exc_str e)) ∧
    (∀ e,
       subprocess_run "df -h" = Raise e →
       disk_usage_resource subprocess_run = Return ("获取磁盘使用失败: " +:+ exc_str e)) ∧
    (∀ command id actx,
       ∃ s, outcome (snd (MaliciousServer.dispatch subprocess_run
                            (mkCall "execute_command" {["command" := VStr command]} id) actx))
            = Success (VStr s)) ∧
    (∀ args id actx,
       ∃ s, outcome (snd (MaliciousServer.dispatch subprocess_run
                            (mkCall "disk://usage" args id) actx))
            = Success (VStr s)).
Proof.
  intros subprocess_run.
  assert (Hexec : ∀ command, ∃ s, execute_command subprocess_run command = Return s).
  { intros command. rewrite execute_command_cases.
    destruct (subprocess_run command); eauto. }
  assert (Hdisk : ∃ s, disk_usage_resource subprocess_run = Return s).
  { rewrite disk_usage_resource_cases. destruct (subprocess_run "df -h"); eauto. }
  repeat split; try done.
  - intros command e He. by rewrite execute_command_cases, He.
  - intros e He. by rewrite disk_usage_resource_cases, He.
  - intros command id actx. destruct (Hexec command) as [s Hs]. exists s.
    unfold MaliciousServer.dispatch, dispatch. cbn.
    rewrite lookup_singleton_eq. cbn.
    unfold MaliciousServer.execute_command_handler.
    rewrite lookup_singleton_eq. by rewrite Hs.
  - intros args id actx. destruct Hdisk as [s Hs]. exists s.
    unfold MaliciousServer.dispatch, dispatch. cbn.
    unfold MaliciousServer.disk_usage_handler. by rewrite Hs.
Qed.

Lemma shell_handlers_total_witness :
  execute_command (fun _ => Raise (mkExc "OSError" "Cannot allocate memory")) "ls"
    = Return ("执行失败: " +:+ exc_str (mkExc "OSError" "Cannot allocate memory")).
Proof.
  apply (proj1 (proj2 (proj2 (shell_handlers_total
           (fun _ => Raise (mkExc "OSError" "Cannot allocate memory"))))) "ls").
  reflexivity.
Defined.

End HandlerTotality.

(** ** Isolation of concurrent sessions *)

Module IsolationFacts.
Import Core.

Section Frame.
Variable reg : Registry.
Variable authorize : PyContext → string → AuthDecision.
Variable app : PyContext → Request → Py (PyContext * Served).

Let step := server_step reg authorize app.

(** A request addressed to one session leaves every other session as it was. *)
Lemma step_frame (st : gmap nat Session) ev sid :
  inbound_sid ev ≠ sid → step st ev !! sid = st !! sid.
Proof.
  intros Hne. destruct ev as [sid' request | sid' request call | sid']; simpl in *.
  - destruct (st !! sid'); [done|].
    destruct (handshake app sid' request); [|done].
    by rewrite lookup_insert_ne.
  - destruct (app None request) as [[c [evs resp]]|]; [|done].
    destruct (posted evs); [|done]. by rewrite lookup_alter_ne.
  - by rewrite lookup_alter_ne.
Qed.

(** What a request does to a session depends on that session alone. *)
Lemma step_local (st1 st2 : gmap nat Session) ev sid :
  st1 !! sid = st2 !! sid → step st1 ev !! sid = step st2 ev !! sid.
Proof.
  intros Heq. destruct (decide (inbound_sid ev = sid)) as [<-|Hne];
    [|by rewrite !step_frame].
  destruct ev as [sid' request | sid' request call | sid']; simpl in *.
  - rewrite <- Heq. destruct (st1 !! sid') eqn:E1.
    + by rewrite E1, Heq.
    + destruct (handshake app sid' request).
      * by rewrite !lookup_insert_eq.
      * by rewrite E1.
  - destruct (app None request) as [[c [evs resp]]|]; [|done].
    destruct (posted evs); [|done]. by rewrite !lookup_alter_eq, Heq.
  - by rewrite !lookup_alter_eq, Heq.
Qed.

Lemma fold_without (tr : list Inbound) s1 s2 :
  s1 ≠ s2 →
  ∀ st1 st2 : gmap nat Session,
    st1 !! s2 = st2 !! s2 →
    fold_left step tr st1 !! s2
      = fold_left step (filter (fun ev => inbound_sid ev ≠ s1) tr) st2 !! s2.
Proof.
  intros Hne. induction tr as [|ev tr IH]; intros st1 st2 Heq; [done|].
  rewrite filter_cons. simpl. destruct (decide (inbound_sid ev ≠ s1)) as [Hd|Hd].
  - simpl. apply IH. by apply step_local.
  - apply IH. rewrite step_frame; [done|].
    apply dec_stable in Hd. congruence.
Qed.

End Frame.

Import CombineAuthServer MiddlewareFacts StrFacts.

(** A handshake on the server of [combine_auth.py] that creates a session
    binds it to the context of the configured token the request presented. *)
Lemma handshake_binds sid request s :
  handshake CombineAuthApp.app sid request = Some s →
  ∃ t, presented_token request = Some t ∧
       is_Some (CombineAuth.API_KEY_PERMISSIONS !! t) ∧
       s = mkSession sid Active (context_of t) [].
Proof.
  unfold handshake, CombineAuthApp.app, presented_token.
  destruct (unauthorized_header (headers request !! "Authorization")) eqn:Hu.
  - by rewrite combine_dispatch_unauthorized.
  - apply unauthorized_header_spec in Hu as (h & Hh & Hpre).
    destruct (index_1_startswith h Hpre) as (token & _ & Htok).
    rewrite (combine_dispatch_bearer _ _ _ h token) by done.
    rewrite Hh, Hpre, Htok. unfold dict_contains.
    case_bool_decide as Hcfg; [|done].
    unfold routes. destruct (String.eqb (path request) "/sse").
    + cbn [connected]. intros [= <-]. eauto.
    + destruct (Str.startswith "/messages/" (path request));
        cbn [connected]; discriminate.
Qed.

Lemma serves_own_token_mono tr ev sid s :
  serves_own_token tr sid s → serves_own_token (tr ++ [ev]) sid s.
Proof.
  intros (Hid & request & t & Hin & Htok & Hcfg & Hb & calls & Hout & Hall).
  split; [done|]. exists request, t. repeat split; try done.
  - apply elem_of_app. by left.
  - exists calls. split; [done|].
    eapply Forall_impl; [exact Hall|]. intros call [r Hr]. exists r.
    apply elem_of_app. by left.
Qed.

Lemma run_snoc tr ev :
  CombineAuthServer.run (tr ++ [ev])
    = CombineAuthServer.server_step (CombineAuthServer.run tr) ev.
Proof. unfold CombineAuthServer.run, Core.run. by rewrite fold_left_app. Qed.

Lemma run_serves_own_token tr :
  ∀ sid s, CombineAuthServer.run tr !! sid = Some s → serves_own_token tr sid s.
Proof.
  induction tr as [|ev tr IH] using rev_ind; intros sid s.
  - unfold CombineAuthServer.run, Core.run. simpl. by rewrite lookup_empty.
  - rewrite run_snoc.
    destruct (decide (inbound_sid ev = sid)) as [<-|Hne].
    2:{ unfold CombineAuthServer.server_step. rewrite step_frame by done.
        intros H. by apply serves_own_token_mono, IH. }
    destruct ev as [sid request | sid request call | sid];
      unfold CombineAuthServer.server_step; simpl.
    + destruct (CombineAuthServer.run tr !! sid) as [s0|] eqn:E.
      * rewrite E. intros [= <-]. by apply serves_own_token_mono, IH.
      * destruct (handshake CombineAuthApp.app sid request) as [s0|] eqn:Hh;
          [|by rewrite E].
        rewrite lookup_insert_eq. intros [= <-].
        apply handshake_binds in Hh as (t & Htok & Hcfg & ->).
        split; [done|]. exists request, t. repeat split; try done.
        -- apply elem_of_app. right. by apply list_elem_of_singleton.
        -- exists []. by split.
    + assert (Hcase :
        ∀ st' : gmap nat Session,
          (st' = CombineAuthServer.run tr ∨
           st' = alter (on_call registry authorize call) sid (CombineAuthServer.run tr)) →
          st' !! sid = Some s →
          serves_own_token (tr ++ [Post sid request call]) sid s).
      { intros st' [->| ->].
        - intros H. by apply serves_own_token_mono, IH.
        - rewrite lookup_alter_eq.
          destruct (CombineAuthServer.run tr !! sid) as [s0|] eqn:E; [|done].
          simpl. intros [= <-].
          destruct (IH sid s0 E)
            as (Hid & req & t & Hin & Htok & Hcfg & Hb & calls & Hout & Hall).
          unfold on_call. destruct (state s0) eqn:Hst;
            try (apply serves_own_token_mono; by apply IH).
          split; [done|]. exists req, t. repeat split; try done.
          + apply elem_of_app. by left.
          + exists (calls ++ [call]). simpl. split.
            * rewrite map_app, Hout, Hb. reflexivity.
            * apply Forall_app. split.
              -- eapply Forall_impl; [exact Hall|]. intros c0 [r Hr]. exists r.
                 apply elem_of_app. by left.
              -- apply Forall_singleton. exists request.
                 apply elem_of_app. right. by apply list_elem_of_singleton. }
      destruct (CombineAuthApp.app None request) as [[c [evs resp]]|];
        [|apply Hcase; by left].
      destruct (posted evs); apply Hcase; [by right|by left].
    + rewrite lookup_alter_eq.
      destruct (CombineAuthServer.run tr !! sid) as [s0|] eqn:E; [|done].
      simpl. intros [= <-].
      destruct (IH sid s0 E)
        as (Hid & req & t & Hin & Htok & Hcfg & Hb & calls & Hout & Hall).
      assert (Hsame : session_id (close s0) = session_id s0 ∧
                      bound (close s0) = bound s0 ∧
                      outbound (close s0) = outbound s0).
      { unfold close. by destruct (state s0). }
      destruct Hsame as (Hi & Hb' & Ho).
      split; [congruence|]. exists req, t. repeat split; try done.
      * apply elem_of_app. by left.
      * congruence.
      * exists calls. split; [congruence|].
        eapply Forall_impl; [exact Hall|]. intros c0 [r Hr]. exists r.
        apply elem_of_app. by left.
Qed.

(** Two sessions, of key1 and of key2, with their calls interleaved; each
    call is posted with the other session's token.  Session 2 is refused
    subtract by the tool and session 1 is granted it. *)
Example interleaved_sessions :
  let tr := [Connect 1 (sse_request "key1");
             Connect 2 (sse_request "key2");
             Post 2 (message_request "key1") (mkCall "subtract" (numbers 5 3) 10);
             Post 1 (message_request "key2") (mkCall "subtract" (numbers 5 3) 11)] in
  CombineAuthServer.run tr !! 2
    = Some (mkSession 2 Active (context_of "key2")
              [mkResult 10 (Error HandlerFailure
                              "Permission denied for tool: subtract")]) ∧
  CombineAuthServer.run tr !! 1
    = Some (mkSession 1 Active (context_of "key1")
              [mkResult 11 (Success (VNum 2))]).
Proof. vm_compute. split; reflexivity. Qed.

(** C1. For two distinct sessions [s1] and [s2] and any interleaving of
    requests: what the server holds for [s2] is what it would hold had no
    request of [s1] ever arrived, and [s2] is bound to the context of the
    token presented by its own accepted handshake, every result on its
    outbound stream being computed under that context from a call posted to
    [s2]. *)
Theorem sessions_are_isolated :
  ∀ (tr : list Inbound) (s1 s2 : nat),
    s1 ≠ s2 →
    CombineAuthServer.run tr !! s2 = CombineAuthServer.run (without s1 tr) !! s2 ∧
    ∀ s, CombineAuthServer.run tr !! s2 = Some s →
         serves_own_token tr s2 s ∧ serves_own_token (without s1 tr) s2 s.
Proof.
  intros tr s1 s2 Hne.
  assert (Heq : CombineAuthServer.run tr !! s2
                = CombineAuthServer.run (without s1 tr) !! s2).
  { unfold CombineAuthServer.run, Core.run, without. by apply fold_without. }
  split; [done|]. intros s Hs. split.
  - by apply run_serves_own_token.
  - apply run_serves_own_token. by rewrite <- Heq.
Qed.

Lemma sessions_are_isolated_witness :
  CombineAuthServer.run
    [Connect 1 (sse_request "key1"); Connect 2 (sse_request "key2");
     Post 2 (message_request "key1") (mkCall "subtract" (numbers 5 3) 10);
     Post 1 (message_request "key2") (mkCall "subtract" (numbers 5 3) 11)] !! 2
  = CombineAuthServer.run
      (without 1
         [Connect 1 (sse_request "key1"); Connect 2 (sse_request "key2");
          Post 2 (message_request "key1") (mkCall "subtract" (numbers 5 3) 10);
          Post 1 (message_request "key2") (mkCall "subtract" (numbers 5 3) 11)]) !! 2.
Proof.
  apply (sessions_are_isolated
           [Connect 1 (sse_request "key1"); Connect 2 (sse_request "key2");
            Post 2 (message_request "key1") (mkCall "subtract" (numbers 5 3) 10);
            Post 1 (message_request "key2") (mkCall "subtract" (numbers 5 3) 11)] 1 2).
  lia.
Defined.

End IsolationFacts.

(** * Further properties of the code *)

(** ** [str.split] *)

Module SplitFacts.
Import Str StrOps.

Lemma app_cons c s t : String c s +:+ t = String c (s +:+ t).
Proof. reflexivity. Qed.

Lemma app_nil_l t : "" +:+ t = t.
Proof. reflexivity. Qed.

Lemma app_nil_r s : s +:+ "" = s.
Proof. induction s as [|c s IH]; [done|]. by rewrite app_cons, IH. Qed.

Lemma app_assoc s t u : (s +:+ t) +:+ u = s +:+ (t +:+ u).
Proof. induction s as [|c s IH]; [done|]. by rewrite !app_cons, IH. Qed.

Lemma length_app s t : String.length (s +:+ t) = String.length s + String.length t.
Proof. induction s as [|c s IH]; [done|]. rewrite app_cons. simpl. by rewrite IH. Qed.

Lemma rev_app_app s t : String.rev_app s t = String.rev s +:+ t.
Proof.
  unfold String.rev. revert t. induction s as [|c s IH]; intros t; [done|].
  simpl. rewrite (IH (String c "")), (IH (String c t)).
  by rewrite app_assoc.
Qed.

Lemma rev_app_rev_app u :
  ∀ v w, String.rev_app (String.rev_app u v) w = String.rev_app v (u +:+ w).
Proof.
  induction u as [|c u IH]; intros v w; [done|].
  simpl. by rewrite IH.
Qed.

Lemma rev_rev_app t : String.rev (String.rev_app t "") = t.
Proof. unfold String.rev. rewrite rev_app_rev_app. simpl. apply app_nil_r. Qed.

Lemma rev_cons c cur : String.rev (String c cur) = String.rev cur +:+ String c "".
Proof. unfold String.rev at 1. simpl. apply rev_app_app. Qed.

Lemma startswith_app sep rest : startswith sep (sep +:+ rest) = true.
Proof.
  induction sep as [|a sep IH]; [done|].
  rewrite app_cons. simpl. by rewrite Ascii.eqb_refl.
Qed.

Lemma startswith_inv sep s :
  startswith sep s = true → ∃ rest, s = sep +:+ rest.
Proof.
  revert s. induction sep as [|a sep IH]; intros s H.
  - by exists s.
  - destruct s as [|b s]; [done|]. simpl in H.
    destruct (Ascii.eqb a b) eqn:E; [|done].
    apply Ascii.eqb_eq in E as ->.
    destruct (IH s H) as [rest ->]. by exists rest.
Qed.

(** X18. [s.startswith(p)] holds exactly when [s] is [p] followed by
    something. *)
Theorem startswith_iff p s :
  startswith p s = true ↔ ∃ rest, s = p +:+ rest.
Proof.
  split; [apply startswith_inv|]. intros [rest ->]. apply startswith_app.
Qed.

(** The characters of a separator that was found are skipped. *)
Lemma split_aux_skip sep l cur s :
  split_aux sep (String.length l) cur (l +:+ s) = split_aux sep 0 cur s.
Proof.
  induction l as [|c l IH]; [by destruct s|].
  rewrite app_cons. simpl. apply IH.
Qed.

Lemma split_aux_found sep a sep' cur rest :
  sep = String a sep' →
  split_aux sep 0 cur (sep +:+ rest)
    = String.rev cur :: split_aux sep 0 "" rest.
Proof.
  intros ->. rewrite app_cons.
  change (split_aux (String a sep') 0 cur (String a (sep' +:+ rest)))
    with (if startswith (String a sep') (String a (sep' +:+ rest))
          then String.rev cur
                 :: split_aux (String a sep') (String.length (String a sep') - 1) ""
                      (sep' +:+ rest)
          else split_aux (String a sep') 0 (String a cur) (sep' +:+ rest)).
  rewrite <- app_cons, startswith_app.
  f_equal.
  replace (String.length (String a sep') - 1) with (String.length sep')
    by (simpl; lia).
  apply split_aux_skip.
Qed.

Lemma split_aux_clean sep t rest :
  ∀ cur, clean sep t rest = true →
         split_aux sep 0 cur (t +:+ rest) = split_aux sep 0 (String.rev_app t cur) rest.
Proof.
  induction t as [|c t IH]; intros cur H; [done|].
  simpl in H. apply andb_true_iff in H as [Hno Hrest].
  apply negb_true_iff in Hno.
  rewrite app_cons in *.
  change (split_aux sep 0 cur (String c (t +:+ rest)))
    with (if startswith sep (String c (t +:+ rest))
          then String.rev cur
                 :: split_aux sep (String.length sep - 1) "" (t +:+ rest)
          else split_aux sep 0 (String c cur) (t +:+ rest)).
  rewrite Hno. simpl String.rev_app. by apply IH.
Qed.

Lemma split_aux_end sep cur : split_aux sep 0 cur "" = [String.rev cur].
Proof. reflexivity. Qed.

Lemma concat_cons sep x l :
  l ≠ [] → String.concat sep (x :: l) = x +:+ sep +:+ String.concat sep l.
Proof. by destruct l. Qed.

Lemma concat_split_aux sep :
  sep ≠ "" →
  ∀ n s, (String.length s ≤ n)%nat →
         ∀ cur, String.concat sep (split_aux sep 0 cur s) = String.rev cur +:+ s.
Proof.
  intros Hsep. induction n as [|n IH]; intros s Hlen cur.
  - destruct s; [|simpl in Hlen; lia]. simpl. by rewrite app_nil_r.
  - destruct s as [|c s]; [simpl; by rewrite app_nil_r|].
    destruct (startswith sep (String c s)) eqn:Hpre.
    + destruct (startswith_inv _ _ Hpre) as [rest Hs]. rewrite Hs.
      destruct sep as [|a sep'] eqn:Esep; [done|]. rewrite <- Esep in *.
      rewrite (split_aux_found sep a sep' cur rest Esep).
      rewrite concat_cons by apply StrFacts.split_aux_nonempty.
      rewrite IH; [done|].
      assert (String.length (String c s) = String.length sep + String.length rest)
        by (by rewrite Hs, length_app).
      subst sep. simpl in *. lia.
    + change (split_aux sep 0 cur (String c s))
        with (if startswith sep (String c s)
              then String.rev cur :: split_aux sep (String.length sep - 1) "" s
              else split_aux sep 0 (String c cur) s).
      rewrite Hpre, IH by (simpl in Hlen; lia).
      by rewrite rev_cons, app_assoc.
Qed.

(** X1. Joining the pieces of a split with the separator gives the string
    back: [sep.join(s.split(sep)) == s]. *)
Theorem join_split sep s :
  sep ≠ "" → String.concat sep (split sep s) = s.
Proof.
  intros Hsep. unfold split.
  by rewrite (concat_split_aux sep Hsep (String.length s) s).
Qed.

Lemma join_split_witness :
  String.concat "Bearer " (split "Bearer " "Bearer key1Bearer x") = "Bearer key1Bearer x".
Proof. apply (join_split "Bearer " "Bearer key1Bearer x"). discriminate. Defined.

Lemma split_no_separator sep t :
  clean sep t "" = true → split sep t = [t].
Proof.
  intros H. unfold split.
  rewrite <- (app_nil_r t) at 1. rewrite split_aux_clean by done.
  rewrite split_aux_end. by rewrite rev_rev_app.
Qed.

Lemma split_cut sep t x :
  sep ≠ "" → clean sep t (sep +:+ x) = true →
  split sep (t +:+ sep +:+ x) = t :: split sep x.
Proof.
  intros Hsep H. unfold split. rewrite split_aux_clean by done.
  destruct sep as [|a sep'] eqn:E; [done|]. rewrite <- E in *.
  rewrite (split_aux_found sep a sep' _ x E).
  by rewrite rev_rev_app.
Qed.

(** X2. The two laws of a split: a string in which the separator does not
    occur is its own single piece, and a piece free of the separator that is
    followed by the separator is cut off there, the rest being split in
    turn. *)
Theorem split_laws sep t x :
  sep ≠ "" →
  (clean sep t "" = true → split sep t = [t]) ∧
  (clean sep t (sep +:+ x) = true → split sep (t +:+ sep +:+ x) = t :: split sep x).
Proof.
  intros Hsep. split.
  - apply split_no_separator.
  - by apply split_cut.
Qed.

Lemma split_laws_witness :
  split "Bearer " "key1" = ["key1"] ∧
  split "Bearer " ("key1" +:+ "Bearer " +:+ "x") = "key1" :: split "Bearer " "x".
Proof.
  split.
  - apply (split_laws "Bearer " "key1" ""); [discriminate|reflexivity].
  - apply (split_laws "Bearer " "key1" "x"); [discriminate|reflexivity].
Defined.

End SplitFacts.

(** ** The middlewares, in full *)

Module MiddlewareMore.
Import Str StrOps SplitFacts StrFacts MiddlewareFacts CombineAuth CombineAuthTools CombineAuthServer.

Lemma split_bearer_prefix rest :
  split "Bearer " ("Bearer " +:+ rest) = "" :: split "Bearer " rest.
Proof.
  by apply (split_cut "Bearer " "" rest).
Qed.

Lemma presented_token_spec request :
  presented_token request = None
    ↔ unauthorized_header (headers request !! "Authorization") = true.
Proof.
  unfold presented_token.
  destruct (headers request !! "Authorization") as [h|] eqn:Hh; [|done].
  destruct (startswith "Bearer " h) eqn:Hpre.
  - destruct (index_1_startswith h Hpre) as (token & _ & ->).
    split; [done|]. intros Hu.
    assert (unauthorized_header (Some h) = false) as Hf
      by (apply unauthorized_header_spec; eauto).
    congruence.
  - split; [|done]. intros _. unfold unauthorized_header. rewrite Hpre.
    apply orb_true_r.
Qed.

Lemma presented_token_Some request t :
  presented_token request = Some t →
  ∃ h, headers request !! "Authorization" = Some h ∧
       startswith "Bearer " h = true ∧ split "Bearer " h !! 1 = Some t.
Proof.
  unfold presented_token.
  destruct (headers request !! "Authorization") as [h|]; [|done].
  destruct (startswith "Bearer " h) eqn:Hpre; [|done]. eauto.
Qed.

(** X3. The token of a header [Bearer <t>] is [t] when "Bearer " does not
    occur in [t]; and a header [Bearer <t>Bearer <x>] is read as the token
    [t], what follows the repeated scheme being dropped. *)
Theorem bearer_header_token request t x :
  (headers request !! "Authorization" = Some ("Bearer " +:+ t) ∧
   clean "Bearer " t "" = true) ∨
  (headers request !! "Authorization" = Some ("Bearer " +:+ t +:+ "Bearer " +:+ x) ∧
   clean "Bearer " t ("Bearer " +:+ x) = true) →
  presented_token request = Some t.
Proof.
  unfold presented_token.
  intros [[-> Hclean] | [-> Hclean]]; rewrite startswith_app, split_bearer_prefix.
  - by rewrite split_no_separator.
  - by rewrite split_cut.
Qed.

Lemma bearer_header_token_witness :
  presented_token (mkRequest "/sse" {["Authorization" := "Bearer key1Bearer key3"]})
    = Some "key1".
Proof.
  apply (bearer_header_token
           (mkRequest "/sse" {["Authorization" := "Bearer key1Bearer key3"]})
           "key1" "key3").
  right. split; reflexivity.
Defined.

(** X4. The middleware of [combine_auth.py] never raises, and the token the
    request presents decides its outcome: none, 401 Unauthorized; one that
    is not configured, 401 Invalid API key; a configured one, the
    application behind it is called in a context that holds exactly that
    token, whatever the context was before. *)
Theorem combine_dispatch_decides (call_next : Endpoint) c request :
  CombineAuthApp.dispatch call_next c request =
  match presented_token request with
  | None => Return (c, ([], Unauthorized))
  | Some t =>
      if dict_contains API_KEY_PERMISSIONS t
      then Return (Some {["auth_token" := t]},
                   call_next (Some {["auth_token" := t]}) request)
      else Return (c, ([], Invalid_API_key))
  end.
Proof.
  destruct (presented_token request) as [t|] eqn:Ht.
  - destruct (presented_token_Some request t Ht) as (h & Hh & Hpre & Htok).
    by apply combine_dispatch_bearer with h.
  - apply combine_dispatch_unauthorized. by apply presented_token_spec.
Qed.

(** X5. The middleware of [api_key.py] never raises and never touches the
    context: it answers 401 Unauthorized without a token, 401 Invalid API
    key for any token but key1, and calls the application for key1. *)
Theorem api_key_dispatch_decides (call_next : Endpoint) c request :
  ApiKey.dispatch call_next c request =
  Return (c, match presented_token request with
             | None => ([], Unauthorized)
             | Some t =>
                 if String.eqb t "key1" then call_next c request
                 else ([], Invalid_API_key)
             end).
Proof.
  destruct (presented_token request) as [t|] eqn:Ht.
  - destruct (presented_token_Some request t Ht) as (h & Hh & Hpre & Htok).
    rewrite (api_key_dispatch_bearer _ _ _ h t) by done.
    unfold ApiKey.valid_api_key. by destruct (String.eqb t "key1").
  - apply api_key_dispatch_unauthorized. by apply presented_token_spec.
Qed.

(** X6. Outside an authenticated request the context variable is unbound
    and [check_permissions], hence both tools, raise an exception of class
    [LookupError], not a permission denial; in a context whose dict has no
    "auth_token" every tool is denied. *)
Theorem check_permissions_missing (d : dict) k a b :
  (∃ e, check_permissions None k = Raise e ∧ exc_class e = "LookupError") ∧
  (∃ e, add None a b = Raise e ∧ exc_class e = "LookupError") ∧
  (∃ e, subtract None a b = Raise e ∧ exc_class e = "LookupError") ∧
  (d !! "auth_token" = None →
   check_permissions (Some d) k
     = Raise (ValueError ("Permission denied for tool: " +:+ k))).
Proof.
  split; [|split; [|split]]; try (eexists; split; reflexivity).
  intros Hd. rewrite TableFacts.check_permissions_unfold, Hd.
  case_bool_decide as Hin; [|done]. by apply not_elem_of_nil in Hin.
Qed.

Lemma check_permissions_missing_witness :
  check_permissions (Some {["user" := "key1"]}) "add"
    = Raise (ValueError ("Permission denied for tool: " +:+ "add")).
Proof.
  apply (check_permissions_missing {["user" := "key1"]} "add" 0%float 0%float).
  reflexivity.
Defined.

(** X7. Behind the middleware the tools see the permissions of the
    presented token: in the context handed on for a configured token with
    table entry [perms], [add] returns the sum exactly when "add" is in
    [perms] and [subtract] the difference exactly when "subtract" is, each
    raising the denial otherwise. *)
Theorem tools_behind_middleware (call_next : Endpoint) c request c' served t perms a b :
  CombineAuthApp.dispatch call_next c request = Return (c', served) →
  presented_token request = Some t →
  API_KEY_PERMISSIONS !! t = Some perms →
  add c' a b
    = (if bool_decide ("add" ∈ perms) then Return (a + b)%float
       else Raise (ValueError "Permission denied for tool: add")) ∧
  subtract c' a b
    = (if bool_decide ("subtract" ∈ perms) then Return (a - b)%float
       else Raise (ValueError "Permission denied for tool: subtract")).
Proof.
  intros Hd Ht Hperms.
  destruct (presented_token_Some request t Ht) as (h & Hh & Hpre & Htok).
  rewrite (combine_dispatch_bearer _ _ _ h t) in Hd by done.
  unfold dict_contains in Hd. rewrite Hperms in Hd.
  rewrite bool_decide_eq_true_2 in Hd by eauto.
  injection Hd as <- _.
  unfold add, subtract. rewrite !TableFacts.check_permissions_unfold.
  rewrite lookup_singleton_eq. simpl. rewrite Hperms. simpl.
  split; by case_bool_decide.
Qed.

Lemma tools_behind_middleware_witness :
  add (Some {["auth_token" := "key3"]}) 5 3
    = (if bool_decide ("add" ∈ ["subtract"]) then Return (5 + 3)%float
       else Raise (ValueError "Permission denied for tool: add")) ∧
  subtract (Some {["auth_token" := "key3"]}) 5 3
    = (if bool_decide ("subtract" ∈ ["subtract"]) then Return (5 - 3)%float
       else Raise (ValueError "Permission denied for tool: subtract")).
Proof.
  apply (tools_behind_middleware routes None (sse_request "key3")
           (Some {["auth_token" := "key3"]})
           ([EvConnectSse (Some {["auth_token" := "key3"]})], EventStream)
           "key3" ["subtract"] 5%float 3%float); reflexivity.
Defined.

End MiddlewareMore.

(** ** [get_docs] and the network *)

Module DocsFacts.
Import Docs SplitFacts.

Section Network.
Variable client_post : string → Py SearchResults.
Variable client_get : string → Py string.

Lemma get_docs_supported query library site :
  docs_urls !! library = Some site →
  get_docs client_post client_get query library =
    (results ← search_web client_post ("site:" +:+ site +:+ " " +:+ query);
     organic ← getitem results "organic";
     if Nat.eqb (length organic) 0 then Return "No results found"
     else fetch_all client_get "" organic).
Proof.
  intros H. unfold get_docs, dict_contains, getitem. rewrite H.
  by rewrite bool_decide_eq_true_2 by eauto.
Qed.

(** X8. A search that times out, with [TimeoutException] or any of its
    subclasses, is not an error: [get_docs] answers "No results found". *)
Theorem search_timeout_no_results query library site e :
  docs_urls !! library = Some site →
  client_post ("site:" +:+ site +:+ " " +:+ query) = Raise e →
  is_Timeout (exc_class e) = true →
  get_docs client_post client_get query library = Return "No results found".
Proof.
  intros Hlib Hpost Hcls. rewrite (get_docs_supported _ _ site Hlib).
  unfold search_web, except_Timeout. by rewrite Hpost, Hcls.
Qed.

(** X9. A failure of the search that is no timeout (a bad status, a body
    that is not JSON) is not caught: [get_docs] raises that same
    exception. *)
Theorem search_error_propagates query library site e :
  docs_urls !! library = Some site →
  client_post ("site:" +:+ site +:+ " " +:+ query) = Raise e →
  is_Timeout (exc_class e) = false →
  get_docs client_post client_get query library = Raise e.
Proof.
  intros Hlib Hpost Hcls. rewrite (get_docs_supported _ _ site Hlib).
  unfold search_web, except_Timeout. by rewrite Hpost, Hcls.
Qed.

(** X10. A search that answers with an empty "organic" list gives
    "No results found"; an answer without "organic" raises [KeyError]. *)
Theorem search_without_results query library site results :
  docs_urls !! library = Some site →
  client_post ("site:" +:+ site +:+ " " +:+ query) = Return results →
  (results !! "organic" = Some [] →
   get_docs client_post client_get query library = Return "No results found") ∧
  (results !! "organic" = None →
   get_docs client_post client_get query library = Raise (KeyError "organic")).
Proof.
  intros Hlib Hpost. rewrite (get_docs_supported _ _ site Hlib).
  unfold search_web, except_Timeout, getitem. rewrite Hpost. simpl.
  split; by intros ->.
Qed.

Lemma fetch_all_pages organic pages :
  Forall2 (DocsOps.fetched client_get) organic pages →
  ∀ text, fetch_all client_get text organic
          = Return (text +:+ String.concat "" pages).
Proof.
  induction 1 as [|result page organic pages (link & Hlink & Hfetch) Hrest IH];
    intros text.
  - simpl. by rewrite app_nil_r.
  - simpl. unfold getitem. rewrite Hlink. simpl. rewrite Hfetch. simpl.
    rewrite IH. f_equal. rewrite SplitFacts.app_assoc. f_equal.
    destruct pages as [|p ps]; [by rewrite app_nil_r|]. reflexivity.
Qed.

(** X11. When the search returns results, [get_docs] returns the texts of
    their pages concatenated in the order of the results. *)
Theorem get_docs_concatenates query library site results organic pages :
  docs_urls !! library = Some site →
  client_post ("site:" +:+ site +:+ " " +:+ query) = Return results →
  results !! "organic" = Some organic →
  organic ≠ [] →
  Forall2 (DocsOps.fetched client_get) organic pages →
  get_docs client_post client_get query library = Return (String.concat "" pages).
Proof.
  intros Hlib Hpost Horg Hne Hpages. rewrite (get_docs_supported _ _ site Hlib).
  unfold search_web, except_Timeout, getitem. rewrite Hpost. simpl.
  rewrite Horg. simpl. destruct organic as [|r rest]; [done|].
  change (Nat.eqb (length (r :: rest)) 0) with false. cbv iota.
  by rewrite (fetch_all_pages _ _ Hpages).
Qed.

(** X12. Timeouts never leave [search_web] and [fetch_url]: a page that
    times out reads "Timeout error", a search that times out has no
    results, and what either function raises is never a
    [TimeoutException] nor one of its subclasses. *)
Theorem timeouts_are_absorbed query url e :
  (client_get url = Raise e → is_Timeout (exc_class e) = true →
   fetch_url client_get url = Return "Timeout error") ∧
  (client_post query = Raise e → is_Timeout (exc_class e) = true →
   search_web client_post query = Return {["organic" := []]}) ∧
  (fetch_url client_get url = Raise e → is_Timeout (exc_class e) = false) ∧
  (search_web client_post query = Raise e → is_Timeout (exc_class e) = false).
Proof.
  unfold fetch_url, search_web, except_Timeout. repeat split.
  - by intros -> ->.
  - by intros -> ->.
  - destruct (client_get url) as [p|e']; [done|].
    destruct (is_Timeout (exc_class e')) eqn:E; [done|]. by intros [= <-].
  - destruct (client_post query) as [p|e']; [done|].
    destruct (is_Timeout (exc_class e')) eqn:E; [done|]. by intros [= <-].
Qed.

Lemma fetch_all_missing_link before pages result rest :
  Forall2 (DocsOps.fetched client_get) before pages →
  result !! "link" = None →
  ∀ text, fetch_all client_get text (before ++ result :: rest)
          = Raise (KeyError "link").
Proof.
  intros Hpages Hlink.
  induction Hpages as [|r p organic ps (link & Hl & Hf) _ IH]; intros text.
  - simpl. unfold getitem. by rewrite Hlink.
  - simpl. unfold getitem. rewrite Hl. simpl. rewrite Hf. simpl. apply IH.
Qed.

(** X14. A result without a "link" aborts the whole call with [KeyError],
    the pages fetched before it being lost. *)
Theorem missing_link_aborts query library site results before pages result rest :
  docs_urls !! library = Some site →
  client_post ("site:" +:+ site +:+ " " +:+ query) = Return results →
  results !! "organic" = Some (before ++ result :: rest) →
  Forall2 (DocsOps.fetched client_get) before pages →
  result !! "link" = None →
  get_docs client_post client_get query library = Raise (KeyError "link").
Proof.
  intros Hlib Hpost Horg Hpages Hlink. rewrite (get_docs_supported _ _ site Hlib).
  unfold search_web, except_Timeout, getitem. rewrite Hpost. simpl.
  rewrite Horg. simpl.
  replace (Nat.eqb (length (before ++ result :: rest)) 0) with false
    by (by destruct before).
  by apply fetch_all_missing_link with pages.
Qed.

End Network.

(** X13. [get_docs] asks the search one question only, the query prefixed
    with "site:<documentation url> ": two networks that answer it alike
    (and serve the same pages) give the same result. *)
Theorem get_docs_asks_site_query post1 post2 client_get query library :
  (∀ site, docs_urls !! library = Some site →
           post1 ("site:" +:+ site +:+ " " +:+ query)
             = post2 ("site:" +:+ site +:+ " " +:+ query)) →
  get_docs post1 client_get query library = get_docs post2 client_get query library.
Proof.
  intros H. destruct (docs_urls !! library) as [site|] eqn:Hlib.
  - rewrite !(get_docs_supported _ _ _ _ site Hlib).
    unfold search_web. by rewrite (H site eq_refl).
  - by rewrite !SessionFacts.get_docs_unsupported.
Qed.

Lemma search_timeout_no_results_witness :
  get_docs (fun _ => Raise (mkExc "ReadTimeout" "timed out")) (fun _ => Return "")
    "React Agent" "agno"
  = Return "No results found".
Proof.
  apply (search_timeout_no_results
           (fun _ => Raise (mkExc "ReadTimeout" "timed out")) (fun _ => Return "")
           "React Agent" "agno" "docs.agno.com" (mkExc "ReadTimeout" "timed out"));
    reflexivity.
Defined.

Lemma search_error_propagates_witness :
  get_docs (fun _ => Raise (mkExc "HTTPStatusError" "403 Forbidden")) (fun _ => Return "")
    "React Agent" "agno"
  = Raise (mkExc "HTTPStatusError" "403 Forbidden").
Proof.
  apply (search_error_propagates
           (fun _ => Raise (mkExc "HTTPStatusError" "403 Forbidden")) (fun _ => Return "")
           "React Agent" "agno" "docs.agno.com" (mkExc "HTTPStatusError" "403 Forbidden"));
    reflexivity.
Defined.

Lemma search_without_results_witness :
  get_docs (fun _ => Return ∅) (fun _ => Return "") "React Agent" "agno"
  = Raise (KeyError "organic").
Proof.
  apply (search_without_results (fun _ => Return ∅) (fun _ => Return "")
           "React Agent" "agno" "docs.agno.com" ∅); reflexivity.
Defined.

Lemma get_docs_concatenates_witness :
  get_docs
    (fun _ => Return {["organic" := [{["link" := "u1"]}; {["link" := "u2"]}] ]})
    (fun url => if String.eqb url "u1" then Return "first page. "
                else Raise (mkExc "TimeoutException" "timed out"))
    "React Agent" "agno"
  = Return (String.concat "" ["first page. "; "Timeout error"]).
Proof.
  apply (get_docs_concatenates
           (fun _ => Return {["organic" := [{["link" := "u1"]}; {["link" := "u2"]}] ]})
           (fun url => if String.eqb url "u1" then Return "first page. "
                       else Raise (mkExc "TimeoutException" "timed out"))
           "React Agent" "agno" "docs.agno.com"
           {["organic" := [{["link" := "u1"]}; {["link" := "u2"]}] ]}
           [{["link" := "u1"]}; {["link" := "u2"]}]
           ["first page. "; "Timeout error"]);
    try reflexivity; [discriminate|].
  repeat constructor.
  - exists "u1". split; reflexivity.
  - exists "u2". split; reflexivity.
Defined.

Lemma timeouts_are_absorbed_witness :
  fetch_url (fun _ => Raise (mkExc "ConnectTimeout" "timed out")) "u"
  = Return "Timeout error".
Proof.
  apply (proj1 (timeouts_are_absorbed
                  (fun _ => Return ∅)
                  (fun _ => Raise (mkExc "ConnectTimeout" "timed out"))
                  "q" "u" (mkExc "ConnectTimeout" "timed out")));
    reflexivity.
Defined.

Lemma missing_link_aborts_witness :
  get_docs
    (fun _ => Return {["organic" := [{["link" := "u1"]}; {["title" := "t"]}] ]})
    (fun _ => Return "first page. ")
    "React Agent" "agno"
  = Raise (KeyError "link").
Proof.
  apply (missing_link_aborts
           (fun _ => Return {["organic" := [{["link" := "u1"]}; {["title" := "t"]}] ]})
           (fun _ => Return "first page. ")
           "React Agent" "agno" "docs.agno.com"
           {["organic" := [{["link" := "u1"]}; {["title" := "t"]}] ]}
           [{["link" := "u1"]}] ["first page. "] {["title" := "t"]} []);
    try reflexivity.
  repeat constructor. exists "u1". split; reflexivity.
Defined.

Lemma get_docs_asks_site_query_witness :
  get_docs (fun q => if String.eqb q "site:docs.agno.com React Agent"
                     then Return {["organic" := []]} else Return ∅)
           (fun _ => Return "") "React Agent" "agno"
  = get_docs (fun _ => Return {["organic" := []]})
             (fun _ => Return "") "React Agent" "agno".
Proof.
  apply (get_docs_asks_site_query
           (fun q => if String.eqb q "site:docs.agno.com React Agent"
                     then Return {["organic" := []]} else Return ∅)
           (fun _ => Return {["organic" := []]})
           (fun _ => Return "") "React Agent" "agno").
  intros site [= <-]. reflexivity.
Defined.

End DocsFacts.

(** ** Handlers that shell out or read files *)

Module ShellFacts.
Import Malicious Streamable.

(** X15. The caller can tell a failed [execute_command] from a completed
    one: the returned string starts with "执行失败: " exactly when
    [subprocess.run] raised. *)
Theorem execute_command_failure_prefix subprocess_run command s :
  execute_command subprocess_run command = Return s →
  (Str.startswith "执行失败: " s = true ↔ ∃ e, subprocess_run command = Raise e).
Proof.
  rewrite HandlerTotality.execute_command_cases.
  destruct (subprocess_run command) as [result|e]; intros [= <-].
  - split; [discriminate|]. by intros [e ?].
  - split; [eauto|]. intros _. apply SplitFacts.startswith_app.
Qed.

Lemma execute_command_failure_prefix_witness :
  Str.startswith "执行失败: " ("执行失败: " +:+ "boom") = true
  ↔ ∃ e, @Raise CompletedProcess (mkExc "OSError" "boom") = Raise e.
Proof.
  apply (execute_command_failure_prefix
           (fun _ => Raise (mkExc "OSError" "boom")) "ls").
  reflexivity.
Defined.

(** X16. [disk_usage_resource] returns the standard output alone, the
    standard error being dropped, and its caller cannot tell a failure from
    a run that printed the same text. *)
Theorem disk_usage_is_stdout subprocess_run out err e :
  (subprocess_run "df -h" = Return (mkCompleted out err) →
   disk_usage_resource subprocess_run = Return out) ∧
  disk_usage_resource (fun _ => Raise e)
    = disk_usage_resource
        (fun _ => Return (mkCompleted ("获取磁盘使用失败: " +:+ exc_str e) "")).
Proof.
  split; [|reflexivity].
  rewrite HandlerTotality.disk_usage_resource_cases. by intros ->.
Qed.

Lemma disk_usage_is_stdout_witness :
  disk_usage_resource (fun _ => Return (mkCompleted "Filesystem" "warning"))
    = Return "Filesystem".
Proof.
  apply (proj1 (disk_usage_is_stdout
                  (fun _ => Return (mkCompleted "Filesystem" "warning"))
                  "Filesystem" "warning" (mkExc "OSError" ""))).
  reflexivity.
Defined.

(** X17. The file resources of [streamable.py] never raise.
    [dynamic_file_resource] names the requested path in its answer both
    ways, and the answer starts with "读取文件 " exactly when reading
    failed. *)
Theorem file_resources_total read_file file_path :
  (∃ s, dynamic_file_resource read_file file_path = Return s ∧
        (Str.startswith ("读取文件 " +:+ file_path) s = true
         ↔ ∃ e, read_file (Some "utf-8") file_path = Raise e) ∧
        (Str.startswith ("文件 " +:+ file_path) s = true
         ↔ ∃ content, read_file (Some "utf-8") file_path = Return content)) ∧
  (∃ s, sensitive_file_resource read_file = Return s).
Proof.
  unfold dynamic_file_resource, sensitive_file_resource, try_except. split.
  - destruct (read_file (Some "utf-8") file_path) as [content|e]; simpl;
      eexists; (split; [reflexivity|]).
    + split; split.
      * discriminate.
      * by intros [e ?].
      * eauto.
      * intros _. rewrite <- SplitFacts.app_assoc. apply SplitFacts.startswith_app.
    + split; split.
      * eauto.
      * intros _. rewrite <- SplitFacts.app_assoc. apply SplitFacts.startswith_app.
      * discriminate.
      * by intros [content ?].
  - destruct (read_file None "/etc/resolv.conf"); simpl; eauto.
Qed.

End ShellFacts.
